(** * x402 insurance on Solana: payment verification and claim lifecycle

    A shallow embedding of [payment_verifier_solana.py],
    [auth/payment_verifier.py] and the [/insure], [/renew], [/claim] handlers
    and the background worker of [server.py], followed by the properties of
    the specification that were checked against them.

    Conventions of the embedding:
    - Python [str] is [string] (ASCII text); a [dict] keyed by strings is a
      [gmap string _] where only lookups matter, and an association list in
      insertion order where the code iterates over it;
    - Python [int] is [Z]; JSON numbers and [Decimal] amounts are exact
      rationals [Q] (binary rounding of [float] is not represented);
    - every reading of the clock is an explicit argument, in whole seconds;
    - a call that may raise returns an [outcome]; an exception that no
      handler catches surfaces as the HTTP 500 body [BUnhandled];
    - calls to the proof engine, the chain client and the claims file are
      recorded in a ghost [trace], oldest first. *)

From Stdlib Require Import ZArith QArith String Ascii List Lia.
From stdpp Require Import base option gmap strings list pretty.
Import ListNotations.

Local Open Scope Z_scope.
Local Open Scope string_scope.

(** ** Python string built-ins used by the code *)

Module PyStr.

(** [str.isspace] on ASCII: TAB, LF, VT, FF, CR, FS, GS, RS, US, space. *)
Definition is_space (c : ascii) : bool :=
  let n := nat_of_ascii c in
  ((9 <=? n)%nat && (n <=? 13)%nat) || ((28 <=? n)%nat && (n <=? 32)%nat).

Fixpoint lstrip (s : string) : string :=
  match s with
  | String c r => if is_space c then lstrip r else s
  | EmptyString => EmptyString
  end.

(** [rstrip] keeps a character when it, or anything after it, is not
    white space. *)
Fixpoint rstrip (s : string) : string :=
  match s with
  | String c r =>
      match rstrip r with
      | EmptyString => if is_space c then EmptyString else String c EmptyString
      | r' => String c r'
      end
  | EmptyString => EmptyString
  end.

Definition strip (s : string) : string := rstrip (lstrip s).

(** [s.split(sep)] for a one-character separator: never the empty list. *)
Fixpoint split (sep : ascii) (s : string) : list string :=
  match s with
  | EmptyString => [EmptyString]
  | String c r =>
      if Ascii.eqb c sep then EmptyString :: split sep r
      else match split sep r with
           | w :: ws => String c w :: ws
           | [] => [String c EmptyString]
           end
  end.

(** [sep in s] together with [s.split(sep, 1)]: the text before and after
    the first separator, [None] when there is none. *)
Fixpoint split_once (sep : ascii) (s : string) : option (string * string) :=
  match s with
  | EmptyString => None
  | String c r =>
      if Ascii.eqb c sep then Some (EmptyString, r)
      else match split_once sep r with
           | Some (k, v) => Some (String c k, v)
           | None => None
           end
  end.

Definition lower_char (c : ascii) : ascii :=
  let n := nat_of_ascii c in
  if ((65 <=? n)%nat && (n <=? 90)%nat) then ascii_of_nat (n + 32) else c.

Fixpoint lower (s : string) : string :=
  match s with
  | String c r => String (lower_char c) (lower r)
  | EmptyString => EmptyString
  end.

(** Truth value of a string: [bool(s)]. *)
Definition truthy (s : string) : bool :=
  match s with EmptyString => false | _ => true end.

(** [s[:n]] *)
Fixpoint take (n : nat) (s : string) : string :=
  match n, s with
  | S n', String c r => String c (take n' r)
  | _, _ => EmptyString
  end.

End PyStr.

(** ** Library calls left abstract

    [py_int] is [int(s)] on a string, [None] standing for [ValueError];
    [verify_signature] is the body of [_verify_signature] (canonical JSON
    message, base58 decoding, ed25519 check), which returns [False] on every
    exception; [recover_ok] is its EIP-712 counterpart; [to_checksum_address]
    is [Web3.to_checksum_address], [None] standing for the exception it
    raises on a malformed address; [sha256_hex] is
    [hashlib.sha256(..).hexdigest()]. *)

Class Externals := {
  py_int : string -> option Z;
  py_int_empty : py_int "" = None;
  verify_signature : string -> Z -> string -> string -> Z -> string -> string -> bool;
  recover_ok : string -> Z -> string -> string -> Z -> string -> string -> bool;
  to_checksum_address : string -> option string;
  sha256_hex : string -> string;
}.

(** Three readings of [time.time()] taken by one [verify_payment] call: in
    [verify_payment] itself, in [_is_nonce_used] and in
    [_cleanup_old_nonces]. *)
Record clock := { t_verify : Z; t_check : Z; t_cleanup : Z }.

(** [_parse_payment_header]: a flat [key=value,key=value] list; items
    without [=] are skipped and a later key overwrites an earlier one. *)
Definition parse_items (norm : string -> string) (items : list string)
  : gmap string string :=
  fold_left
    (fun parts item =>
       match PyStr.split_once "=" item with
       | Some (key, value) => <[norm (PyStr.strip key) := PyStr.strip value]> parts
       | None => parts
       end)
    items ∅.

Definition _parse_payment_header (payment_header : string) : gmap string string :=
  parse_items id (PyStr.split "," payment_header).

(** ** payment_verifier_solana.py *)

Module Solana.

Record PaymentDetailsSolana := {
  payer : string;
  amount_units : Z;
  asset : string;
  pay_to : string;
  timestamp : Z;
  nonce : string;
  signature : string;
  is_valid : bool;
}.

Record PaymentVerifierSolana := {
  backend_pubkey : string;
  usdc_mint : string;
  nonce_cache : gmap string Z;
  cache_cleanup_interval : Z;
  last_cleanup : Z;
}.

(** [__init__] at clock reading [now]. *)
Definition init (backend usdc : string) (now : Z) : PaymentVerifierSolana :=
  {| backend_pubkey := backend; usdc_mint := usdc; nonce_cache := ∅;
     cache_cleanup_interval := 3600; last_cleanup := now |}.

Definition nonce_key (payer nonce : string) : string :=
  payer +:+ ":" +:+ nonce.

Definition _cleanup_old_nonces (self : PaymentVerifierSolana) (current_time : Z)
  : PaymentVerifierSolana :=
  let cutoff_time := current_time - 3600 in
  {| backend_pubkey := backend_pubkey self; usdc_mint := usdc_mint self;
     nonce_cache := filter (fun kv => ¬ (kv.2 < cutoff_time)) (nonce_cache self);
     cache_cleanup_interval := cache_cleanup_interval self;
     last_cleanup := current_time |}.

Definition cleanup_due (self : PaymentVerifierSolana) (now : clock) : bool :=
  bool_decide (t_check now - last_cleanup self > cache_cleanup_interval self).

Definition _is_nonce_used (self : PaymentVerifierSolana) (now : clock)
  (payer nonce : string) : bool * PaymentVerifierSolana :=
  let key := nonce_key payer nonce in
  let self' := if cleanup_due self now
               then _cleanup_old_nonces self (t_cleanup now) else self in
  (bool_decide (is_Some (nonce_cache self' !! key)), self').

Definition _mark_nonce_used (self : PaymentVerifierSolana)
  (payer nonce : string) (timestamp : Z) : PaymentVerifierSolana :=
  {| backend_pubkey := backend_pubkey self; usdc_mint := usdc_mint self;
     nonce_cache := <[nonce_key payer nonce := timestamp]> (nonce_cache self);
     cache_cleanup_interval := cache_cleanup_interval self;
     last_cleanup := last_cleanup self |}.

(** The result returned for an empty header and from the
    [except Exception] branch. *)
Definition blank : PaymentDetailsSolana :=
  {| payer := ""; amount_units := 0; asset := ""; pay_to := "";
     timestamp := 0; nonce := ""; signature := ""; is_valid := false |}.

(** [int(payment_data.get(key, 0))] *)
Definition int_field `{ext : Externals} (payment_data : gmap string string)
  (key : string) : option Z :=
  match payment_data !! key with
  | Some v => py_int v
  | None => Some 0
  end.

Section VerifyPayment.
Context `{ext : Externals}.

Definition verify_payment (self : PaymentVerifierSolana) (now : clock)
  (payment_header : string) (payer_address : option string)
  (required_amount max_age_seconds : Z)
  : PaymentDetailsSolana * PaymentVerifierSolana :=
  let payment_data := _parse_payment_header payment_header in
  if bool_decide (payment_data = ∅) then (blank, self) else
  let payer := default (default "" payer_address) (payment_data !! "payer") in
  match int_field payment_data "amount" with
  | None => (blank, self)
  | Some amount =>
  let asset := default (usdc_mint self) (payment_data !! "asset") in
  let pay_to := default (backend_pubkey self) (payment_data !! "payTo") in
  match int_field payment_data "timestamp" with
  | None => (blank, self)
  | Some timestamp =>
  let nonce := default "" (payment_data !! "nonce") in
  let signature := default "" (payment_data !! "signature") in
  let details ok :=
    {| payer := payer; amount_units := amount; asset := asset;
       pay_to := pay_to; timestamp := timestamp; nonce := nonce;
       signature := signature; is_valid := ok |} in
  if negb (PyStr.truthy payer && negb (amount =? 0)%Z && PyStr.truthy asset
           && PyStr.truthy pay_to && negb (timestamp =? 0)%Z
           && PyStr.truthy nonce && PyStr.truthy signature)
  then (details false, self)
  else if negb (amount =? required_amount)%Z then (details false, self)
  else if negb (String.eqb pay_to (backend_pubkey self)) then (details false, self)
  else if negb (String.eqb asset (usdc_mint self)) then (details false, self)
  else
    let current_time := t_verify now in
    if (timestamp >? current_time + 60)%Z then (details false, self)
    else if (current_time - timestamp >? max_age_seconds)%Z then (details false, self)
    else
      let '(used, self1) := _is_nonce_used self now payer nonce in
      if used then (details false, self1)
      else
        let ok := verify_signature payer amount asset pay_to timestamp nonce signature in
        let self2 := if ok then _mark_nonce_used self1 payer nonce timestamp
                     else self1 in
        (details ok, self2)
  end
  end.

End VerifyPayment.

(** [SimplePaymentVerifierSolana.verify_payment]: keys are lower-cased,
    only the amount is compared, nothing is remembered. *)
Section SimpleVerifier.
Context `{ext : Externals}.

Definition default_pubkey : string := "11111111111111111111111111111111".

Definition simple_verify_payment (backend usdc : string) (now : Z)
  (payment_header : string) (payer_address : option string)
  (required_amount : Z) : PaymentDetailsSolana :=
  let parts := parse_items PyStr.lower (PyStr.split "," payment_header) in
  let amount_text :=
    match parts !! "amount" with
    | Some v => if PyStr.truthy v then Some v else None
    | None => None
    end in
  let signature := default "" (parts !! "signature") in
  let reject (amount : Z) :=
    {| payer := default "" payer_address; amount_units := amount;
       asset := usdc; pay_to := backend; timestamp := now; nonce := "";
       signature := signature; is_valid := false |} in
  match amount_text with
  | None => reject 0
  | Some v =>
      match py_int v with
      | None => blank
      | Some amount =>
          if negb (amount =? required_amount)%Z then reject amount
          else
            {| payer := match payer_address with
                        | Some a => if PyStr.truthy a then a else default_pubkey
                        | None => default_pubkey
                        end;
               amount_units := amount; asset := usdc; pay_to := backend;
               timestamp := now; nonce := default "" (parts !! "token");
               signature := signature; is_valid := true |}
      end
  end.

End SimpleVerifier.

End Solana.

(** ** auth/payment_verifier.py

    The EVM-flavoured verifier: same sequence of checks, with checksum
    normalisation of recipient and asset, a lower-cased payer in the ledger
    key and a ledger that is written back to [nonce_cache.json]. *)

Module Evm.

Record PaymentDetails := {
  payer : string;
  amount_units : Z;
  asset : string;
  pay_to : string;
  timestamp : Z;
  nonce : string;
  signature : string;
  is_valid : bool;
}.

Record PaymentVerifier := {
  backend_address : string;
  usdc_address : string;
  nonce_cache : gmap string Z;
  nonce_file : gmap string Z;
  cache_cleanup_interval : Z;
  last_cleanup : Z;
}.

Definition nonce_key (payer nonce : string) : string :=
  PyStr.lower payer +:+ ":" +:+ nonce.

Definition _save_nonces (self : PaymentVerifier) : PaymentVerifier :=
  {| backend_address := backend_address self; usdc_address := usdc_address self;
     nonce_cache := nonce_cache self; nonce_file := nonce_cache self;
     cache_cleanup_interval := cache_cleanup_interval self;
     last_cleanup := last_cleanup self |}.

Definition _cleanup_old_nonces (self : PaymentVerifier) (current_time : Z)
  : PaymentVerifier :=
  let cutoff_time := current_time - 3600 in
  let kept := filter (fun kv => ¬ (kv.2 < cutoff_time)) (nonce_cache self) in
  let self' :=
    {| backend_address := backend_address self; usdc_address := usdc_address self;
       nonce_cache := kept; nonce_file := nonce_file self;
       cache_cleanup_interval := cache_cleanup_interval self;
       last_cleanup := current_time |} in
  if bool_decide (kept = nonce_cache self) then self' else _save_nonces self'.

Definition _is_nonce_used (self : PaymentVerifier) (now : clock)
  (payer nonce : string) : bool * PaymentVerifier :=
  let key := nonce_key payer nonce in
  let self' :=
    if bool_decide (t_check now - last_cleanup self > cache_cleanup_interval self)
    then _cleanup_old_nonces self (t_cleanup now) else self in
  (bool_decide (is_Some (nonce_cache self' !! key)), self').

Definition _mark_nonce_used (self : PaymentVerifier)
  (payer nonce : string) (timestamp : Z) : PaymentVerifier :=
  _save_nonces
    {| backend_address := backend_address self; usdc_address := usdc_address self;
       nonce_cache := <[nonce_key payer nonce := timestamp]> (nonce_cache self);
       nonce_file := nonce_file self;
       cache_cleanup_interval := cache_cleanup_interval self;
       last_cleanup := last_cleanup self |}.

Definition blank : PaymentDetails :=
  {| payer := ""; amount_units := 0; asset := ""; pay_to := "";
     timestamp := 0; nonce := ""; signature := ""; is_valid := false |}.

Section VerifyPayment.
Context `{ext : Externals}.

Definition verify_payment (self : PaymentVerifier) (now : clock)
  (payment_header : string) (payer_address : option string)
  (required_amount max_age_seconds : Z)
  : PaymentDetails * PaymentVerifier :=
  let payment_data := _parse_payment_header payment_header in
  if bool_decide (payment_data = ∅) then (blank, self) else
  let payer := default (default "" payer_address) (payment_data !! "payer") in
  match Solana.int_field payment_data "amount" with
  | None => (blank, self)
  | Some amount =>
  let asset := default (usdc_address self) (payment_data !! "asset") in
  let pay_to := default (backend_address self) (payment_data !! "payTo") in
  match Solana.int_field payment_data "timestamp" with
  | None => (blank, self)
  | Some timestamp =>
  let nonce := default "" (payment_data !! "nonce") in
  let signature := default "" (payment_data !! "signature") in
  let details ok :=
    {| payer := payer; amount_units := amount; asset := asset;
       pay_to := pay_to; timestamp := timestamp; nonce := nonce;
       signature := signature; is_valid := ok |} in
  if negb (PyStr.truthy payer && negb (amount =? 0)%Z && PyStr.truthy asset
           && PyStr.truthy pay_to && negb (timestamp =? 0)%Z
           && PyStr.truthy nonce && PyStr.truthy signature)
  then (details false, self)
  else if negb (amount =? required_amount)%Z then (details false, self)
  else
    match to_checksum_address pay_to with
    | None => (blank, self)
    | Some pay_to_cs =>
    if negb (String.eqb pay_to_cs (backend_address self)) then (details false, self)
    else
    match to_checksum_address asset with
    | None => (blank, self)
    | Some asset_cs =>
    if negb (String.eqb asset_cs (usdc_address self)) then (details false, self)
    else
      let current_time := t_verify now in
      if (timestamp >? current_time + 60)%Z then (details false, self)
      else if (current_time - timestamp >? max_age_seconds)%Z then (details false, self)
      else
        let '(used, self1) := _is_nonce_used self now payer nonce in
        if used then (details false, self1)
        else
          let ok := recover_ok payer amount asset pay_to timestamp nonce signature in
          let self2 := if ok then _mark_nonce_used self1 payer nonce timestamp
                       else self1 in
          (details ok, self2)
    end
    end
  end
  end.

End VerifyPayment.

End Evm.

(** ** server.py *)

Module Server.

(** A call that may raise. *)
Inductive outcome (A : Type) :=
| Ok (a : A)
| Raise (msg : string).
Arguments Ok {A} a.
Arguments Raise {A} msg.

(** The [status] strings of policy and claim records. *)
Inductive PolicyStatus := active | claimed | expired.
Inductive ClaimStatus := processing | paid | failed.

#[global] Instance PolicyStatus_eq_dec : EqDecision PolicyStatus.
Proof. solve_decision. Defined.
#[global] Instance ClaimStatus_eq_dec : EqDecision ClaimStatus.
Proof. solve_decision. Defined.

Record Policy := {
  policy_id : string;
  agent_address : string;
  merchant_url : string;
  merchant_url_hash : string;
  coverage_amount : Q;
  coverage_amount_units : Z;
  premium : Q;
  premium_units : Z;
  status : PolicyStatus;
  created_at : Z;
  expires_at : Z;
  renewed_at : option Z;
  renewal_count : option Z;
  total_renewal_fees : option Q;
}.

(** The [http_response] object of a claim body. *)
Record HttpResponse := {
  hr_status : Z;
  hr_body : string;
  hr_headers : list (string * string);
}.

(** A claim record; a key that one of the two writers leaves out is an
    [option] here, [None] meaning that the key is absent. *)
Record Claim := {
  claim_id : string;
  c_policy_id : string;
  c_status : ClaimStatus;
  http_response : option HttpResponse;
  http_status : Z;
  http_body_hash : string;
  http_headers : list (string * string);
  c_agent_address : option string;
  c_coverage_amount : option Q;
  c_coverage_amount_units : option Z;
  proof : option string;
  public_inputs : option (list Z);
  proof_generation_time_ms : option Z;
  verification_result : option bool;
  payout_amount : option Q;
  payout_amount_units : option Z;
  attestation_tx_hash : option string;
  refund_tx_hash : option string;
  recipient_address : option string;
  c_created_at : Z;
  paid_at : option Z;
  failed_at : option Z;
  error : option string;
  idempotency_key : option string;
}.

(** Ghost log of the calls that leave the process and of the writes to the
    claims file. [issue_refund_called] also carries the claim on whose
    behalf the call was made. *)
Inductive Event :=
| generate_proof_called (http_status : Z)
| verify_proof_called (proof : string)
| store_proof_on_chain_called (claim_id proof_hash : string)
    (http_status payout_amount : Z) (result : outcome string)
| issue_refund_called (for_claim to_address : string) (amount : Z)
    (result : outcome string)
| claim_saved (claim_id : string) (status : ClaimStatus)
| thread_started (claim_id : string).

(** The module-level [payment_verifier] object. *)
Inductive Verifier :=
| Full (v : Solana.PaymentVerifierSolana)
| Simple (backend_pubkey usdc_mint : string).

Record Config := {
  PREMIUM_PERCENTAGE : Q;
  MAX_COVERAGE : Q;
  POLICY_DURATION : Z;
  PAYMENT_MAX_AGE_SECONDS : Z;
}.

(** [policies.json], [claims.json] (in insertion order), the verifier
    object, the threads started and not yet run, and the ghost log. *)
Record State := {
  policies : gmap string Policy;
  claims : list (string * Claim);
  payment_verifier : Verifier;
  threads : list string;
  trace : list Event;
}.

Definition set_policies (st : State) (ps : gmap string Policy) : State :=
  {| policies := ps; claims := claims st; payment_verifier := payment_verifier st;
     threads := threads st; trace := trace st |}.
Definition set_claims (st : State) (cs : list (string * Claim)) : State :=
  {| policies := policies st; claims := cs; payment_verifier := payment_verifier st;
     threads := threads st; trace := trace st |}.
Definition set_payment_verifier (st : State) (pv : Verifier) : State :=
  {| policies := policies st; claims := claims st; payment_verifier := pv;
     threads := threads st; trace := trace st |}.
Definition set_threads (st : State) (ts : list string) : State :=
  {| policies := policies st; claims := claims st;
     payment_verifier := payment_verifier st; threads := ts; trace := trace st |}.
Definition log (st : State) (evs : list Event) : State :=
  {| policies := policies st; claims := claims st;
     payment_verifier := payment_verifier st; threads := threads st;
     trace := trace st ++ evs |}.

(** [d.get(k)] and [d[k] = v] on a dictionary kept in insertion order. *)
Fixpoint dict_get {A} (d : list (string * A)) (k : string) : option A :=
  match d with
  | [] => None
  | (k', v) :: r => if String.eqb k' k then Some v else dict_get r k
  end.

Fixpoint dict_set {A} (d : list (string * A)) (k : string) (v : A)
  : list (string * A) :=
  match d with
  | [] => [(k, v)]
  | (k', v') :: r =>
      if String.eqb k' k then (k, v) :: r else (k', v') :: dict_set r k v
  end.

(** [save_data(CLAIMS_FILE, claims)] after [claims[claim_id] = record]. *)
Definition save_claim (st : State) (id : string) (c : Claim) : State :=
  log (set_claims st (dict_set (claims st) id c)) [claim_saved id (c_status c)].

(** HTTP responses: the status code and the fields of the JSON body that
    the properties below read. *)
Inductive Body :=
| BError (error : string)
| BPaymentRequired (amount : Z)
| BPolicy (policy_id agent_address : string) (coverage_amount premium : Q)
    (expires_at : Z)
| BRenewed (policy_id : string) (old_expires_at new_expires_at : Z)
    (renewal_fee : Q) (renewal_count : Z)
| BClaim (claim_id policy_id proof : string) (public_inputs : list Z)
    (payout_amount : Q) (refund_tx_hash : string) (status : ClaimStatus)
    (idempotent : bool)
| BAccepted (claim_id policy_id : string) (status : ClaimStatus)
| BRefundFailed (error attestation_tx_hash : string)
| BClaimStatus (claim_id policy_id : string) (status : ClaimStatus)
    (payout_amount : option Q) (refund_tx_hash : option string)
    (paid_at : option Z)
| BClaimRecord (claim : Claim)
| BUnhandled (exception : string).

Record Response := { code : Z; body : Body }.

Definition respond (c : Z) (b : Body) : Response := {| code := c; body := b |}.

(** [to_micro]: six decimals, rounded towards zero. *)
Definition to_micro (amount_usdc : Q) : Z :=
  Z.quot (Qnum amount_usdc * 1000000) (Z.pos (Qden amount_usdc)).

Section Handlers.
Context `{ext : Externals}.
Variable config : Config.

(** [payment_verifier.verify_payment(...)] on whichever verifier the
    server was started with. *)
Definition verify_payment (pv : Verifier) (now : clock)
  (payment_header : string) (payer_address : option string)
  (required_amount max_age_seconds : Z)
  : Solana.PaymentDetailsSolana * Verifier :=
  match pv with
  | Full v =>
      let '(d, v') := Solana.verify_payment v now payment_header payer_address
                        required_amount max_age_seconds in
      (d, Full v')
  | Simple backend usdc =>
      (Solana.simple_verify_payment backend usdc (t_verify now)
         payment_header payer_address required_amount, pv)
  end.

(** *** POST /insure *)





(** *** POST /renew *)

Record RenewRequest := {
  rn_policy_id : option string;
  rn_extend_hours : option Z;
  rn_payment_header : option string;
  rn_payer_header : option string;
}.

Record RenewEnv := { rn_now : Z; rn_clock : clock; rn_renewed_at : Z }.

Definition renewal_fee_of (policy : Policy) (extend_hours : Z) : Q :=
  Qmult (Qmult (coverage_amount policy) (PREMIUM_PERCENTAGE config))
        (Qmake extend_hours 24).

Definition renewed (policy : Policy) (extend_hours : Z) (renewed_now : Z)
  : Policy :=
  {| policy_id := policy_id policy; agent_address := agent_address policy;
     merchant_url := merchant_url policy;
     merchant_url_hash := merchant_url_hash policy;
     coverage_amount := coverage_amount policy;
     coverage_amount_units := coverage_amount_units policy;
     premium := premium policy; premium_units := premium_units policy;
     status := status policy; created_at := created_at policy;
     expires_at := expires_at policy + extend_hours * 3600;
     renewed_at := Some renewed_now;
     renewal_count := Some (default 0 (renewal_count policy) + 1);
     total_renewal_fees :=
       Some (Qplus (default (inject_Z 0) (total_renewal_fees policy))
                   (renewal_fee_of policy extend_hours)) |}.

Definition renew_policy (st : State) (req : RenewRequest) (env : RenewEnv)
  : Response * State :=
  let extend_hours := default 24 (rn_extend_hours req) in
  match rn_policy_id req with
  | None => (respond 400 (BError "Missing policy_id"), st)
  | Some pid =>
  if negb (PyStr.truthy pid) then (respond 400 (BError "Missing policy_id"), st)
  else if (extend_hours <? 1)%Z || (extend_hours >? 168)%Z
  then (respond 400 (BError "extend_hours must be between 1 and 168 (7 days)"), st)
  else
    match policies st !! pid with
    | None => (respond 404 (BError "Policy not found"), st)
    | Some policy =>
    if negb (bool_decide (status policy = active))
    then (respond 400 (BError "Can only renew active policies"), st)
    else if (expires_at policy <? rn_now env)%Z
    then (respond 400 (BError "Cannot renew expired policy. Please purchase a new policy."), st)
    else
      let renewal_fee := renewal_fee_of policy extend_hours in
      let renewal_fee_units := to_micro renewal_fee in
      match rn_payment_header req, rn_payer_header req with
      | Some header, Some payer_header =>
          if negb (PyStr.truthy header) || negb (PyStr.truthy payer_header)
          then (respond 402 (BPaymentRequired renewal_fee_units), st)
          else
            let '(details, pv) :=
              verify_payment (payment_verifier st) (rn_clock env) header
                (Some payer_header) renewal_fee_units
                (PAYMENT_MAX_AGE_SECONDS config) in
            let st1 := set_payment_verifier st pv in
            if negb (Solana.is_valid details)
            then (respond 402 (BError "Payment verification failed"), st1)
            else if negb (String.eqb (PyStr.lower (Solana.payer details))
                                     (PyStr.lower (agent_address policy)))
            then (respond 403 (BError "Only policy owner can renew policy"), st1)
            else
              let policy' := renewed policy extend_hours (rn_renewed_at env) in
              (respond 200
                 (BRenewed pid (expires_at policy) (expires_at policy')
                    renewal_fee (default 0 (renewal_count policy'))),
               set_policies st1 (<[pid := policy']> (policies st1)))
      | _, _ => (respond 402 (BPaymentRequired renewal_fee_units), st)
      end
    end
  end.

(** *** POST /claim *)

Record ClaimRequest := {
  cl_policy_id : option string;
  cl_http_response : option HttpResponse;
  cl_idempotency_key : option string;
  cl_async : option string;
}.

(** What one run of [claim] draws from its environment: the UUID, the
    clock readings, and the outcome of each call it may make to the proof
    engine and to the chain client. *)
Record ClaimEnv := {
  cl_uuid : string;
  cl_now : Z;
  cl_created_at : Z;
  cl_paid_at : Z;
  generate_proof : outcome (string * list Z * Z);
  verify_proof : outcome bool;
  store_proof_on_chain : outcome string;
  issue_refund : outcome string;
}.

(** The first record, in file order, stored under the idempotency key. *)
Fixpoint find_idempotent (cs : list (string * Claim)) (key : string)
  : option Claim :=
  match cs with
  | [] => None
  | (_, existing_claim) :: r =>
      if bool_decide (idempotency_key existing_claim = Some key)
      then Some existing_claim
      else find_idempotent r key
  end.

(** The idempotent response reads [proof], [public_inputs],
    [payout_amount] and [refund_tx_hash] by subscript: a missing key is a
    [KeyError] that nothing catches. *)
Definition idempotent_response (existing_claim : Claim) : Response :=
  match proof existing_claim, public_inputs existing_claim,
        payout_amount existing_claim, refund_tx_hash existing_claim with
  | Some pr, Some inputs, Some amount, Some refund =>
      respond 200
        (BClaim (claim_id existing_claim) (c_policy_id existing_claim) pr
           inputs amount refund (c_status existing_claim) true)
  | _, _, _, _ => respond 500 (BUnhandled "KeyError")
  end.

Definition async_mode (req : ClaimRequest) : bool :=
  let a := PyStr.lower (default "false" (cl_async req)) in
  String.eqb a "true" || String.eqb a "1" || String.eqb a "yes".

(** [policy.get("coverage_amount_units") or to_micro(policy.get("coverage_amount"))] *)
Definition payout_units (policy : Policy) : Z :=
  if (coverage_amount_units policy =? 0)%Z
  then to_micro (coverage_amount policy)
  else coverage_amount_units policy.

Definition with_status (policy : Policy) (s : PolicyStatus) : Policy :=
  {| policy_id := policy_id policy; agent_address := agent_address policy;
     merchant_url := merchant_url policy;
     merchant_url_hash := merchant_url_hash policy;
     coverage_amount := coverage_amount policy;
     coverage_amount_units := coverage_amount_units policy;
     premium := premium policy; premium_units := premium_units policy;
     status := s; created_at := created_at policy;
     expires_at := expires_at policy; renewed_at := renewed_at policy;
     renewal_count := renewal_count policy;
     total_renewal_fees := total_renewal_fees policy |}.

(** The record written by the asynchronous branch. *)
Definition processing_record (id pid : string) (policy : Policy)
  (hr : HttpResponse) (key : option string) (now : Z) : Claim :=
  {| claim_id := id; c_policy_id := pid; c_status := processing;
     http_response := Some hr; http_status := hr_status hr;
     http_body_hash := sha256_hex (hr_body hr);
     http_headers := hr_headers hr;
     c_agent_address := Some (agent_address policy);
     c_coverage_amount := Some (coverage_amount policy);
     c_coverage_amount_units := Some (payout_units policy);
     proof := None; public_inputs := None; proof_generation_time_ms := None;
     verification_result := None; payout_amount := None;
     payout_amount_units := None; attestation_tx_hash := None;
     refund_tx_hash := None; recipient_address := None;
     c_created_at := now; paid_at := None; failed_at := None; error := None;
     idempotency_key := key |}.

(** The record written at the end of the synchronous branch. *)
Definition paid_record (id pid : string) (policy : Policy) (hr : HttpResponse)
  (key : option string) (proof_hex : string) (inputs : list Z)
  (gen_time_ms : Z) (attestation refund : string) (created paid_time : Z)
  : Claim :=
  {| claim_id := id; c_policy_id := pid; c_status := paid;
     http_response := None; http_status := hr_status hr;
     http_body_hash := sha256_hex (hr_body hr);
     http_headers := hr_headers hr;
     c_agent_address := None; c_coverage_amount := None;
     c_coverage_amount_units := None;
     proof := Some proof_hex; public_inputs := Some inputs;
     proof_generation_time_ms := Some gen_time_ms;
     verification_result := Some true;
     payout_amount := Some (coverage_amount policy);
     payout_amount_units := Some (payout_units policy);
     attestation_tx_hash := Some attestation;
     refund_tx_hash := Some refund;
     recipient_address := Some (agent_address policy);
     c_created_at := created; paid_at := Some paid_time; failed_at := None;
     error := None; idempotency_key := key |}.

Definition claim_sync (st : State) (pid : string) (policy : Policy)
  (hr : HttpResponse) (key : option string) (env : ClaimEnv)
  : Response * State :=
  let st1 := log st [generate_proof_called (hr_status hr)] in
  match generate_proof env with
  | Raise e => (respond 500 (BError ("Proof generation failed: " +:+ e)), st1)
  | Ok (proof_hex, inputs, gen_time_ms) =>
  let st2 := log st1 [verify_proof_called proof_hex] in
  match verify_proof env with
  | Raise e => (respond 500 (BError ("Proof verification failed: " +:+ e)), st2)
  | Ok is_valid =>
  if negb is_valid
  then (respond 500 (BError "Generated proof is invalid (internal error)"), st2)
  else
  match inputs !! 0%nat, inputs !! 1%nat, inputs !! 2%nat, inputs !! 3%nat with
  | Some is_failure, Some _, Some _, Some _ =>
  if negb (is_failure =? 1)%Z
  then (respond 400 (BError "No API failure detected in HTTP response"), st2)
  else
    let payout_amount_units := payout_units policy in
    let id := cl_uuid env in
    let proof_hash := PyStr.take 64 proof_hex in
    let attest r :=
      store_proof_on_chain_called id proof_hash (hr_status hr)
        payout_amount_units r in
    match store_proof_on_chain env with
    | Raise e =>
        (respond 500 (BError ("Failed to store proof on-chain: " +:+ e)),
         log st2 [attest (Raise e)])
    | Ok attestation =>
    let st3 := log st2 [attest (Ok attestation)] in
    let refund r :=
      issue_refund_called id (agent_address policy) payout_amount_units r in
    match issue_refund env with
    | Raise e =>
        (respond 500 (BRefundFailed ("Refund failed: " +:+ e) attestation),
         log st3 [refund (Raise e)])
    | Ok refund_tx =>
    let st4 := log st3 [refund (Ok refund_tx)] in
    let claim_record :=
      paid_record id pid policy hr key proof_hex inputs gen_time_ms
        attestation refund_tx (cl_created_at env) (cl_paid_at env) in
    let st5 := save_claim st4 id claim_record in
    let st6 := set_policies st5 (<[pid := with_status policy claimed]> (policies st)) in
    (respond 201
       (BClaim id pid proof_hex inputs (coverage_amount policy) refund_tx paid
          false), st6)
    end
    end
  | _, _, _, _ => (respond 500 (BUnhandled "IndexError"), st2)
  end
  end
  end.

Definition claim_async (st : State) (pid : string) (policy : Policy)
  (hr : HttpResponse) (key : option string) (env : ClaimEnv)
  : Response * State :=
  let id := cl_uuid env in
  let claim_record := processing_record id pid policy hr key (cl_created_at env) in
  let st1 := save_claim st id claim_record in
  let st2 := log (set_threads st1 (threads st1 ++ [id])) [thread_started id] in
  (respond 202 (BAccepted id pid processing), st2).

Definition claim (st : State) (req : ClaimRequest) (env : ClaimEnv)
  : Response * State :=
  match cl_policy_id req, cl_http_response req with
  | Some pid, Some hr =>
      if negb (PyStr.truthy pid)
      then (respond 400 (BError "Missing policy_id or http_response"), st)
      else
        let key := cl_idempotency_key req in
        let replay :=
          match key with
          | Some k => if PyStr.truthy k then find_idempotent (claims st) k else None
          | None => None
          end in
        match replay with
        | Some existing_claim => (idempotent_response existing_claim, st)
        | None =>
            match policies st !! pid with
            | None => (respond 404 (BError "Policy not found"), st)
            | Some policy =>
                if negb (bool_decide (status policy = active))
                then (respond 400 (BError "Policy is not active"), st)
                else if (expires_at policy <? cl_now env)%Z
                then (respond 400 (BError "Policy expired"), st)
                else if async_mode req
                then claim_async st pid policy hr key env
                else claim_sync st pid policy hr key env
            end
        end
  | _, _ => (respond 400 (BError "Missing policy_id or http_response"), st)
  end.

(** *** process_claim_async *)

Record WorkerEnv := {
  wk_generate_proof : outcome (string * list Z * Z);
  wk_verify_proof : outcome bool;
  wk_issue_refund : outcome string;
  wk_paid_at : Z;
  wk_failed_at : Z;
}.

Definition fail_claim (c : Claim) (msg : string) (at_time : option Z) : Claim :=
  {| claim_id := claim_id c; c_policy_id := c_policy_id c; c_status := failed;
     http_response := http_response c; http_status := http_status c;
     http_body_hash := http_body_hash c; http_headers := http_headers c;
     c_agent_address := c_agent_address c;
     c_coverage_amount := c_coverage_amount c;
     c_coverage_amount_units := c_coverage_amount_units c;
     proof := proof c; public_inputs := public_inputs c;
     proof_generation_time_ms := proof_generation_time_ms c;
     verification_result := verification_result c;
     payout_amount := payout_amount c;
     payout_amount_units := payout_amount_units c;
     attestation_tx_hash := attestation_tx_hash c;
     refund_tx_hash := refund_tx_hash c;
     recipient_address := recipient_address c;
     c_created_at := c_created_at c; paid_at := paid_at c;
     failed_at := match at_time with Some t => Some t | None => failed_at c end;
     error := Some msg; idempotency_key := idempotency_key c |}.

Definition pay_claim (c : Claim) (proof_hex : string) (inputs : list Z)
  (gen_time_ms : Z) (amount : Q) (units : Z) (to_address refund : string)
  (paid_time : Z) : Claim :=
  {| claim_id := claim_id c; c_policy_id := c_policy_id c; c_status := paid;
     http_response := None; http_status := http_status c;
     http_body_hash := http_body_hash c; http_headers := http_headers c;
     c_agent_address := c_agent_address c;
     c_coverage_amount := c_coverage_amount c;
     c_coverage_amount_units := c_coverage_amount_units c;
     proof := Some proof_hex; public_inputs := Some inputs;
     proof_generation_time_ms := Some gen_time_ms;
     verification_result := Some true;
     payout_amount := Some amount; payout_amount_units := Some units;
     attestation_tx_hash := attestation_tx_hash c;
     refund_tx_hash := Some refund;
     recipient_address := Some to_address;
     c_created_at := c_created_at c; paid_at := Some paid_time;
     failed_at := failed_at c; error := error c;
     idempotency_key := idempotency_key c |}.

(** The [except Exception] branch: the claims file is read again and the
    record, if still there, is marked failed. *)
Definition mark_failed (st : State) (id msg : string) (now : Z) : State :=
  match dict_get (claims st) id with
  | Some c => save_claim st id (fail_claim c msg (Some now))
  | None => st
  end.

Definition process_claim_async (st : State) (id : string) (env : WorkerEnv)
  : State :=
  match dict_get (claims st) id with
  | None => st
  | Some c =>
  match policies st !! c_policy_id c with
  | None => save_claim st id (fail_claim c "Policy not found" None)
  | Some policy =>
  match http_response c with
  | None => mark_failed st id "KeyError" (wk_failed_at env)
  | Some hr =>
  let st1 := log st [generate_proof_called (hr_status hr)] in
  match wk_generate_proof env with
  | Raise e => mark_failed st1 id e (wk_failed_at env)
  | Ok (proof_hex, inputs, gen_time_ms) =>
  let st2 := log st1 [verify_proof_called proof_hex] in
  match wk_verify_proof env with
  | Raise e => mark_failed st2 id e (wk_failed_at env)
  | Ok is_valid =>
  if negb is_valid
  then save_claim st2 id (fail_claim c "Generated proof is invalid" None)
  else
  match inputs !! 0%nat with
  | None => mark_failed st2 id "IndexError" (wk_failed_at env)
  | Some is_failure =>
  if negb (is_failure =? 1)%Z
  then save_claim st2 id
         (fail_claim c "No API failure detected in HTTP response" None)
  else
  match c_agent_address c, c_coverage_amount_units c with
  | Some to_address, Some units =>
      let refund r := issue_refund_called id to_address units r in
      match wk_issue_refund env with
      | Raise e => mark_failed (log st2 [refund (Raise e)]) id e (wk_failed_at env)
      | Ok refund_tx =>
          let st3 := log st2 [refund (Ok refund_tx)] in
          match c_coverage_amount c with
          | None => mark_failed st3 id "KeyError" (wk_failed_at env)
          | Some amount =>
              let st4 :=
                save_claim st3 id
                  (pay_claim c proof_hex inputs gen_time_ms amount units
                     to_address refund_tx (wk_paid_at env)) in
              set_policies st4
                (<[c_policy_id c := with_status policy claimed]> (policies st))
          end
      end
  | _, _ => mark_failed st2 id "KeyError" (wk_failed_at env)
  end
  end
  end
  end
  end
  end
  end.

(** *** GET /claims/<claim_id> and GET /proofs/<claim_id> *)

Definition get_claim_status (st : State) (id : string) : Response :=
  match dict_get (claims st) id with
  | None => respond 404 (BError "Claim not found")
  | Some c =>
      respond 200
        (BClaimStatus (claim_id c) (c_policy_id c) (c_status c)
           (payout_amount c) (refund_tx_hash c) (paid_at c))
  end.

Definition get_proof (st : State) (id : string) : Response :=
  match dict_get (claims st) id with
  | None => respond 404 (BError "Claim not found")
  | Some c => respond 200 (BClaimRecord c)
  end.

(** *** Requests and background threads, one at a time

    A submission runs to its response; a thread started by an
    asynchronous submission runs later, once, at a moment of the
    scheduler's choosing. *)

Inductive Action :=
| Submit (req : ClaimRequest) (env : ClaimEnv)
| RunThread (id : string) (env : WorkerEnv).

Fixpoint remove_first (id : string) (l : list string) : list string :=
  match l with
  | [] => []
  | x :: r => if String.eqb x id then r else x :: remove_first id r
  end.

Definition step (st : State) (a : Action) : State :=
  match a with
  | Submit req env => (claim st req env).2
  | RunThread id env =>
      if bool_decide (id ∈ threads st)
      then process_claim_async (set_threads st (remove_first id (threads st))) id env
      else st
  end.

Definition run (st : State) (actions : list Action) : State :=
  fold_left step actions st.

Definition is_payout (e : Event) : bool :=
  match e with issue_refund_called _ _ _ _ => true | _ => false end.

Definition is_attestation (e : Event) : bool :=
  match e with store_proof_on_chain_called _ _ _ _ _ => true | _ => false end.


Definition paid_claims_of (st : State) (pid : string) : list string :=
  map fst (List.filter
             (fun kc => String.eqb (c_policy_id kc.2) pid
                        && bool_decide (c_status kc.2 = paid))
             (claims st)).

End Handlers.

End Server.

(** * Vocabulary of the properties *)

Section VerifierVocabulary.
Context `{ext : Externals}.
Import Solana.

(** What the call presents as payer and nonce. *)
Definition presented_payer (payment_header : string)
  (payer_address : option string) : string :=
  default (default "" payer_address)
          (_parse_payment_header payment_header !! "payer").

Definition presented_nonce (payment_header : string) : string :=
  default "" (_parse_payment_header payment_header !! "nonce").

(** The verifier after the cleanup that [_is_nonce_used] may run. *)
Definition swept (self : PaymentVerifierSolana) (now : clock)
  : PaymentVerifierSolana :=
  if cleanup_due self now then _cleanup_old_nonces self (t_cleanup now) else self.

(** Everything that an accepted authorization has passed. *)
Record accepted (self : PaymentVerifierSolana) (now : clock)
  (payment_header : string) (payer_address : option string)
  (required_amount max_age_seconds : Z)
  (d : PaymentDetailsSolana) (self' : PaymentVerifierSolana) : Prop := {
  acc_payer : payer d = presented_payer payment_header payer_address;
  acc_nonce : nonce d = presented_nonce payment_header;
  acc_amount : int_field (_parse_payment_header payment_header) "amount"
               = Some required_amount;
  acc_amount_nz : required_amount <> 0;
  acc_timestamp : int_field (_parse_payment_header payment_header) "timestamp"
                  = Some (timestamp d);
  acc_timestamp_nz : timestamp d <> 0;
  acc_fields : payer d <> "" /\ asset d <> "" /\ pay_to d <> ""
               /\ nonce d <> "" /\ signature d <> "";
  acc_asset : asset d = default (usdc_mint self)
                          (_parse_payment_header payment_header !! "asset");
  acc_pay_to : pay_to d = default (backend_pubkey self)
                            (_parse_payment_header payment_header !! "payTo");
  acc_signature : signature d = default ""
                    (_parse_payment_header payment_header !! "signature");
  acc_fresh : timestamp d <= t_verify now + 60
              /\ t_verify now - timestamp d <= max_age_seconds;
  acc_unused : nonce_cache (swept self now) !! nonce_key (payer d) (nonce d) = None;
  acc_state : self' = _mark_nonce_used (swept self now) (payer d) (nonce d)
                        (timestamp d);
}.

(** Whether one of the seven fields is missing once the defaults of the
    code have been applied: [amount] and [timestamp] fall back to [0],
    [nonce] and [signature] to the empty string, [payer] to the [X-Payer]
    header, [asset] and [payTo] to the configured mint and backend key. *)
Definition blank_or_zero (d : gmap string string) (k : string) : Prop :=
  match d !! k with
  | None => True
  | Some v => v = "" \/ py_int v = Some 0
  end.

Definition lacks_required_field (d : gmap string string)
  (payer_address : option string) (default_asset default_pay_to : string)
  : Prop :=
  blank_or_zero d "amount" \/ blank_or_zero d "timestamp"
  \/ default "" (d !! "nonce") = "" \/ default "" (d !! "signature") = ""
  \/ default (default "" payer_address) (d !! "payer") = ""
  \/ default default_asset (d !! "asset") = ""
  \/ default default_pay_to (d !! "payTo") = "".

End VerifierVocabulary.

Section ServerVocabulary.
Context `{ext : Externals}.
Variable config : Server.Config.
Import Server.



(** A submission that gets past the idempotency lookup and the policy
    checks. *)
Record validated (st : State) (req : ClaimRequest) (env : ClaimEnv)
  (pid : string) (policy : Policy) (hr : HttpResponse) : Prop := {
  val_policy_id : cl_policy_id req = Some pid /\ pid <> "";
  val_http_response : cl_http_response req = Some hr;
  val_no_replay :
    match cl_idempotency_key req with
    | Some k => k = "" \/ find_idempotent (claims st) k = None
    | None => True
    end;
  val_policy : policies st !! pid = Some policy;
  val_active : status policy = active;
  val_unexpired : cl_now env <= expires_at policy;
}.

(** The four external calls of a synchronous run in which every step
    succeeds, in the order in which they are made. *)
Definition sync_calls (id : string) (policy : Policy) (hr : HttpResponse)
  (proof_hex attestation refund_tx : string) : list Event :=
  [ generate_proof_called (hr_status hr);
    verify_proof_called proof_hex;
    store_proof_on_chain_called id (PyStr.take 64 proof_hex) (hr_status hr)
      (payout_units policy) (Ok attestation);
    issue_refund_called id (agent_address policy) (payout_units policy)
      (Ok refund_tx) ].

End ServerVocabulary.

(** ** A concrete instance of the library calls, for the worked examples

    [int] on ASCII decimal text with an optional sign; a signature check that
    accepts the text [good]; addresses that are their own checksum form. *)

Module Demo.

Fixpoint dec_digits (s : string) (acc : Z) : option Z :=
  match s with
  | EmptyString => Some acc
  | String c r =>
      let n := nat_of_ascii c in
      if ((48 <=? n)%nat && (n <=? 57)%nat)
      then dec_digits r (10 * acc + Z.of_nat (n - 48))
      else None
  end.

Definition ascii_int (s : string) : option Z :=
  match PyStr.strip s with
  | EmptyString => None
  | String "-" r =>
      match r with EmptyString => None | _ => Z.opp <$> dec_digits r 0 end
  | String "+" r =>
      match r with EmptyString => None | _ => dec_digits r 0 end
  | r => dec_digits r 0
  end.

Definition externals : Externals :=
  {| py_int := ascii_int;
     py_int_empty := eq_refl;
     verify_signature := fun _ _ _ _ _ _ sig => String.eqb sig "good";
     recover_ok := fun _ _ _ _ _ _ sig => String.eqb sig "good";
     to_checksum_address := fun s => Some s;
     sha256_hex := fun s => "sha256(" +:+ s +:+ ")" |}.

Definition at_time (t : Z) : clock :=
  {| t_verify := t; t_check := t; t_cleanup := t |}.

Definition full_header (ts sig : string) : string :=
  "payer=Alice,amount=1000,asset=USDC,payTo=BK,timestamp=" +:+ ts
    +:+ ",nonce=n1,signature=" +:+ sig.

End Demo.

(** ** The scenario of the worked examples for the server

    One policy, [p1], bought by [Alice] for 0.1 USDC of coverage, and the
    evidence of a 503 answer. The oracle confirms the failure
    ([public_inputs[0] = 1]) and every chain call succeeds unless said
    otherwise. *)

Module Scenario.
Import Server.

Definition config : Config :=
  {| PREMIUM_PERCENTAGE := 1 # 100; MAX_COVERAGE := 1 # 10;
     POLICY_DURATION := 24; PAYMENT_MAX_AGE_SECONDS := 300 |}.

Definition p1 : Policy :=
  {| policy_id := "p1"; agent_address := "Alice";
     merchant_url := "https://api.example.com";
     merchant_url_hash := "sha256(https://api.example.com)";
     coverage_amount := 1 # 10; coverage_amount_units := 100000;
     premium := 1 # 1000; premium_units := 1000; status := active;
     created_at := 1000; expires_at := 87400; renewed_at := None;
     renewal_count := None; total_renewal_fees := None |}.

Definition st0 : State :=
  {| policies := {["p1" := p1]}; claims := [];
     payment_verifier := Full (Solana.init "BK" "USDC" 1000);
     threads := []; trace := [] |}.

Definition outage : HttpResponse :=
  {| hr_status := 503; hr_body := ""; hr_headers := [] |}.

Definition submission (key mode : option string) : ClaimRequest :=
  {| cl_policy_id := Some "p1"; cl_http_response := Some outage;
     cl_idempotency_key := key; cl_async := mode |}.

Definition proved : outcome (string * list Z * Z) :=
  Ok ("proof", [1; 503; 0; 100000], 15).

(** The environment of a submission whose claim gets identifier [id];
    [refund] is what [issue_refund] does if it is called. *)
Definition handler (id : string) (now : Z) (refund : outcome string) : ClaimEnv :=
  {| cl_uuid := id; cl_now := now; cl_created_at := now; cl_paid_at := now;
     generate_proof := proved; verify_proof := Ok true;
     store_proof_on_chain := Ok ("attest-" +:+ id); issue_refund := refund |}.

Definition worker (now : Z) (refund : outcome string) : WorkerEnv :=
  {| wk_generate_proof := proved; wk_verify_proof := Ok true;
     wk_issue_refund := refund; wk_paid_at := now; wk_failed_at := now |}.

Definition claim := Server.claim (ext := Demo.externals).
Definition run := Server.run (ext := Demo.externals).

End Scenario.

(** * More of the code

    The client-side header builder of [generate_payment.py], the refund path
    of [blockchain_solana.py], the configuration and verifier selection of
    [config.py] and [server.py], the expiry sweep of [database.py] and the
    [/policies] listing of [server.py]. *)

(** ** generate_payment.py *)

Module Generator.

Section Header.
(** [str(n)] on an [int], as the f-string applies it. *)
Variable py_str : Z -> string.

(** The [X-Payment] header built at the end of [generate_signed_payment],
    from the payer address, the fields of the signed message and the base58
    text of the signature. *)
Definition payment_header (payer_address : string) (amount_micro_usdc : Z)
  (usdc_mint backend_pubkey : string) (timestamp : Z)
  (nonce signature_b58 : string) : string :=
  "payer=" +:+ payer_address
  +:+ ",amount=" +:+ py_str amount_micro_usdc
  +:+ ",asset=" +:+ usdc_mint
  +:+ ",payTo=" +:+ backend_pubkey
  +:+ ",timestamp=" +:+ py_str timestamp
  +:+ ",nonce=" +:+ nonce
  +:+ ",signature=" +:+ signature_b58.

(** What the header carries: the fields of [message_data] and the
    signature, each under its key. *)
Definition fields (payer_address : string) (amount_micro_usdc : Z)
  (usdc_mint backend_pubkey : string) (timestamp : Z)
  (nonce signature_b58 : string) : gmap string string :=
  list_to_map
    [("payer", payer_address); ("amount", py_str amount_micro_usdc);
     ("asset", usdc_mint); ("payTo", backend_pubkey);
     ("timestamp", py_str timestamp); ("nonce", nonce);
     ("signature", signature_b58)].

End Header.

(** [",".join(items)] *)
Fixpoint join_comma (items : list string) : string :=
  match items with
  | [] => EmptyString
  | [x] => x
  | x :: r => x +:+ String "," (join_comma r)
  end.

(** Text that survives the header format: no comma inside, no white space
    at either end. *)
Fixpoint no_comma (s : string) : bool :=
  match s with
  | EmptyString => true
  | String c r => negb (Ascii.eqb c ",") && no_comma r
  end.

Definition clean (s : string) : Prop :=
  no_comma s = true /\ PyStr.strip s = s.

End Generator.

(** ** blockchain_solana.py: issue_refund *)

Module Chain.

Inductive RefundError :=
| InvalidAddress
| InsufficientUSDC (have need : Z)
| InsufficientSOL (have : Z)
| RetriesExhausted (max_retries : Z) (last_error : option string).

Inductive Result :=
| Sent (tx_sig : string)
| Failed (e : RefundError).

Record BlockchainClientSolana := {
  has_wallet : bool;
  max_retries : Z;
}.

(** What one call of [issue_refund] meets: the text drawn for the mock
    signature, whether [Pubkey.from_string] accepts the recipient, the two
    balances as [get_balance] and [get_sol_balance] report them, and what the
    [k]-th call of [_send_usdc_transfer] does ([inr] is the exception). *)
Record RefundEnv := {
  mock_sig : string;
  address_ok : bool;
  usdc_balance : Z;
  sol_balance : Z;
  send : nat -> string + string;
}.

(** What a call did besides returning: how many transfers it sent and how
    many seconds it slept between them. *)
Record Effort := { sends : nat; slept : Z }.

(** The loop [for attempt in range(self.max_retries)], from [attempt] on,
    with [remaining] rounds to go. *)
Fixpoint attempts (env : RefundEnv) (limit : Z) (attempt remaining : nat)
  (last_error : option string) (done : Effort) : Result * Effort :=
  match remaining with
  | O => (Failed (RetriesExhausted limit last_error), done)
  | S remaining' =>
      let pause := if (0 <? attempt)%nat then 2 ^ Z.of_nat attempt else 0 in
      let done' := {| sends := S (sends done); slept := slept done + pause |} in
      match send env attempt with
      | inl tx_sig => (Sent tx_sig, done')
      | inr e => attempts env limit (S attempt) remaining' (Some e) done'
      end
  end.

Definition issue_refund (self : BlockchainClientSolana) (env : RefundEnv)
  (to_address : string) (amount : Z) : Result * Effort :=
  let idle := {| sends := 0; slept := 0 |} in
  if negb (has_wallet self) then (Sent (mock_sig env), idle)
  else if negb (address_ok env) then (Failed InvalidAddress, idle)
  else if (usdc_balance env <? amount)%Z
  then (Failed (InsufficientUSDC (usdc_balance env) amount), idle)
  else if (sol_balance env <? 5000)%Z
  then (Failed (InsufficientSOL (sol_balance env)), idle)
  else attempts env (max_retries self) 0 (Z.to_nat (max_retries self)) None idle.

Definition raises (env : RefundEnv) (k : nat) : Prop :=
  exists e, send env k = inr e.

(** A funded call with a wallet and a well-formed recipient: the one that
    reaches the retry loop. *)
Definition reaches_loop (self : BlockchainClientSolana) (env : RefundEnv)
  (amount : Z) : Prop :=
  has_wallet self = true /\ address_ok env = true
  /\ amount <= usdc_balance env /\ 5000 <= sol_balance env.

End Chain.

(** ** config.py and the start of server.py *)

Module Startup.

Inductive ConfigClass := DevelopmentConfig | ProductionConfig | TestingConfig.

(** [config_map.get(name)] *)
Definition config_map (name : string) : option ConfigClass :=
  if String.eqb name "development" then Some DevelopmentConfig
  else if String.eqb name "production" then Some ProductionConfig
  else if String.eqb name "testing" then Some TestingConfig
  else None.

(** [bool(os.getenv(key))] *)
Definition is_set (environ : gmap string string) (key : string) : bool :=
  match environ !! key with
  | Some v => PyStr.truthy v
  | None => false
  end.

(** [get_config()] with no argument; [inr] is the [ValueError]. *)
Definition get_config (environ : gmap string string) : ConfigClass + string :=
  let env := default (default "development" (environ !! "ENV"))
               (environ !! "FLASK_ENV") in
  let config_class := default DevelopmentConfig (config_map (PyStr.lower env)) in
  match config_class with
  | ProductionConfig =>
      if negb (is_set environ "BASE_RPC_URL")
      then inr "BASE_RPC_URL must be set in production"
      else if negb (is_set environ "BACKEND_WALLET_PRIVATE_KEY")
      then inr "BACKEND_WALLET_PRIVATE_KEY must be set in production"
      else if negb (is_set environ "BACKEND_WALLET_ADDRESS")
      then inr "BACKEND_WALLET_ADDRESS must be set in production"
      else inl config_class
  | _ => inl config_class
  end.

(** The class attribute [PAYMENT_VERIFICATION_MODE] of the three classes
    that [get_config] can return. *)
Definition PAYMENT_VERIFICATION_MODE (c : ConfigClass) : string :=
  match c with
  | ProductionConfig => "full"
  | DevelopmentConfig | TestingConfig => "simple"
  end.

Definition devnet_usdc : string := "4zMMC9srt5Ri5X14GAgXhaHii3GnPAEERYPJgZJDncDU".

(** The module-level code of [server.py] up to the payment verifier:
    configuration, the Solana-only check, the chain client (whose
    constructor may raise), then the choice between the two verifiers.
    [now] is the clock reading taken by the verifier's constructor. *)
Definition payment_verifier (environ : gmap string string)
  (chain_client_ok : bool) (now : Z) : Server.Verifier + string :=
  match get_config environ with
  | inr e => inr e
  | inl config =>
      let network := PyStr.lower (default "base" (environ !! "BLOCKCHAIN_NETWORK")) in
      let backend_address :=
        if String.eqb network "solana" then environ !! "BACKEND_WALLET_PUBKEY"
        else environ !! "BACKEND_WALLET_ADDRESS" in
      if negb (String.eqb network "solana")
      then inr "This service only supports Solana. Set BLOCKCHAIN_NETWORK=solana in your .env file"
      else if negb chain_client_ok then inr "chain client"
      else
        let usdc := default devnet_usdc (environ !! "USDC_MINT_ADDRESS") in
        let backend_set :=
          match backend_address with Some a => PyStr.truthy a | None => false end in
        if String.eqb (PAYMENT_VERIFICATION_MODE config) "full" && backend_set
        then inl (Server.Full (Solana.init (default "" backend_address) usdc now))
        else inl (Server.Simple
                    (if backend_set then default "" backend_address
                     else Solana.default_pubkey) usdc)
  end.

End Startup.

(** ** database.py: JSONFileBackend.cleanup_expired_policies *)

Module Database.

(** The sweep keeps a policy when it is unexpired and [active], and counts
    every other one; the policies file is replaced by what was kept. *)
Definition keeps (now : Z) (policy : Server.Policy) : Prop :=
  now < Server.expires_at policy /\ Server.status policy = Server.active.

#[global] Instance keeps_dec now policy : Decision (keeps now policy).
Proof. unfold keeps. apply _. Defined.

Definition cleanup_expired_policies (st : Server.State) (now : Z)
  : Z * Server.State :=
  let active_policies := filter (fun kv => keeps now kv.2) (Server.policies st) in
  (Z.of_nat (size (Server.policies st)) - Z.of_nat (size active_policies),
   Server.set_policies st active_policies).

End Database.

(** ** server.py: GET /policies *)

Module Listing.





End Listing.

(** A chain client with a wallet and three tries, funded, whose first two
    transfers time out. *)
Definition flaky_client : Chain.BlockchainClientSolana :=
  {| Chain.has_wallet := true; Chain.max_retries := 3 |}.

Definition flaky_network : Chain.RefundEnv :=
  {| Chain.mock_sig := "mock"; Chain.address_ok := true;
     Chain.usdc_balance := 500000; Chain.sol_balance := 10000;
     Chain.send := fun k => if (k <? 2)%nat then inr "timeout" else inl "tx3" |}.


(** The scenario after an asynchronous submission, and after a paid
    synchronous one under the idempotency key [K]. *)
Definition st_waiting : Server.State :=
  (Scenario.claim Scenario.st0 (Scenario.submission None (Some "true"))
     (Scenario.handler "c1" 2000 (Server.Ok "tx1"))).2.

Definition st_paid : Server.State :=
  (Scenario.claim Scenario.st0 (Scenario.submission (Some "K") None)
     (Scenario.handler "c1" 2000 (Server.Ok "tx1"))).2.



Definition renewal (pid payer : string) : Server.RenewRequest :=
  {| Server.rn_policy_id := Some pid; Server.rn_extend_hours := Some 24;
     Server.rn_payment_header :=
       Some ("payer=" +:+ payer
             +:+ ",amount=1000,asset=USDC,payTo=BK,timestamp=2000,nonce=n7,signature=good");
     Server.rn_payer_header := Some payer |}.

Definition renewal_env : Server.RenewEnv :=
  {| Server.rn_now := 2000; Server.rn_clock := Demo.at_time 2000;
     Server.rn_renewed_at := 2000 |}.

(** ** What a purchase stores *)

Section PurchaseVocabulary.
Context `{ext : Externals}.
Variable config : Server.Config.
Import Server.


End PurchaseVocabulary.

(** ** Sequences of verifier calls *)

Record Call := {
  call_clock : clock;
  call_header : string;
  call_payer : option string;
  call_required : Z;
  call_max_age : Z;
}.

Definition call `{ext : Externals} (v : Solana.PaymentVerifierSolana) (c : Call)
  : Solana.PaymentDetailsSolana * Solana.PaymentVerifierSolana :=
  Solana.verify_payment v (call_clock c) (call_header c) (call_payer c)
    (call_required c) (call_max_age c).

Definition after_calls `{ext : Externals} (v : Solana.PaymentVerifierSolana)
  (cs : list Call) : Solana.PaymentVerifierSolana :=
  fold_left (fun v c => (call v c).2) cs v.

(** * Properties of the payment verifier *)

(** ** The embedding on small inputs *)

Example split_keeps_empty_items :
  PyStr.split "," "a=1, b = 2,,c" = ["a=1"; " b = 2"; ""; "c"].
Proof. reflexivity. Qed.

Example strip_both_ends : PyStr.strip "  a b   " = "a b".
Proof. reflexivity. Qed.

Example parse_last_key_wins :
  map_to_list (_parse_payment_header "a=1, b = 2,,c, a=3=4")
  = [("a", "3=4"); ("b", "2")].
Proof. vm_compute. reflexivity. Qed.

Example lower_is_ascii : PyStr.lower "AbC9z" = "abc9z".
Proof. reflexivity. Qed.

Example ascii_int_samples :
  Demo.ascii_int " 42 " = Some 42 /\ Demo.ascii_int "-7" = Some (-7)
  /\ Demo.ascii_int "4x" = None /\ Demo.ascii_int "" = None.
Proof. vm_compute. repeat split. Qed.

Example to_micro_rounds_down :
  Server.to_micro (1 # 10) = 100000 /\ Server.to_micro (1 # 10000000) = 0
  /\ Server.to_micro (15 # 10000000) = 1.
Proof. vm_compute. repeat split. Qed.

Example dict_set_keeps_order :
  Server.dict_set [("a", 1); ("b", 2)] "a" 3 = [("a", 3); ("b", 2)]
  /\ Server.dict_set [("a", 1); ("b", 2)] "c" 3 = [("a", 1); ("b", 2); ("c", 3)].
Proof. split; reflexivity. Qed.

(** The simple verifier, unlike the full one, accepts an amount of zero. *)
Example simple_verifier_accepts_zero :
  Solana.is_valid
    (Solana.simple_verify_payment (ext := Demo.externals) "BK" "USDC" 2000
       "amount=0,signature=x" (Some "Alice") 0) = true.
Proof. reflexivity. Qed.

(** The owner renews under another spelling of the same address. *)
Example renewal_by_owner_ignores_case :
  let policy := Server.with_status Scenario.p1 Server.active in
  let st :=
    Server.set_policies Scenario.st0
      {["p1" := Server.renewed Scenario.config policy 0 1000]} in
  let req :=
    {| Server.rn_policy_id := Some "p1"; Server.rn_extend_hours := Some 24;
       Server.rn_payment_header :=
         Some "payer=ALICE,amount=1000,asset=USDC,payTo=BK,timestamp=2000,nonce=n9,signature=good";
       Server.rn_payer_header := Some "ALICE" |} in
  let env :=
    {| Server.rn_now := 2000; Server.rn_clock := Demo.at_time 2000;
       Server.rn_renewed_at := 2000 |} in
  let r := Server.renew_policy (ext := Demo.externals) Scenario.config st req env in
  Server.code r.1 = 200
  /\ Server.expires_at <$> (Server.policies r.2 !! "p1") = Some (87400 + 86400)
  /\ Server.renewal_count <$> (Server.policies r.2 !! "p1") = Some (Some 2).
Proof. vm_compute. repeat split. Qed.

(** The sequential, synchronous life of a policy: the first claim is paid
    after its attestation and marks the policy [claimed]; the second is
    turned away before any external call. *)
Example second_sync_claim_rejected :
  let first :=
    Scenario.claim Scenario.st0 (Scenario.submission None None)
      (Scenario.handler "c1" 2000 (Server.Ok "tx1")) in
  let second :=
    Scenario.claim first.2 (Scenario.submission None None)
      (Scenario.handler "c2" 2005 (Server.Ok "tx2")) in
  Server.code first.1 = 201
  /\ Server.status <$> (Server.policies first.2 !! "p1") = Some Server.claimed
  /\ second = (Server.respond 400 (Server.BError "Policy is not active"), first.2).
Proof. vm_compute. repeat split. Qed.


Section VerifierFacts.
Context `{ext : Externals}.
Import Solana.

Lemma is_nonce_used_state self now p n :
  (_is_nonce_used self now p n).2 = swept self now.
Proof. reflexivity. Qed.

Lemma is_nonce_used_value self now p n :
  (_is_nonce_used self now p n).1
  = bool_decide (is_Some (nonce_cache (swept self now) !! nonce_key p n)).
Proof. reflexivity. Qed.

Lemma truthy_nonempty s : PyStr.truthy s = true <-> s <> "".
Proof. destruct s; simpl; split; congruence. Qed.

Lemma verify_payment_accepted self now header payer_address required max_age :
  is_valid (verify_payment self now header payer_address required max_age).1 = true ->
  accepted self now header payer_address required max_age
    (verify_payment self now header payer_address required max_age).1
    (verify_payment self now header payer_address required max_age).2.
Proof.
  unfold verify_payment.
  destruct (bool_decide _); [discriminate |].
  destruct (int_field _ "amount") as [amount |] eqn:Ha; [| discriminate].
  destruct (int_field _ "timestamp") as [ts |] eqn:Ht; [| discriminate].
  destruct (negb (_ && _)) eqn:Hall; [discriminate |].
  apply negb_false_iff in Hall.
  repeat (apply andb_true_iff in Hall; destruct Hall as [Hall ?]).
  destruct (negb (amount =? required)%Z) eqn:Hreq; [discriminate |].
  destruct (negb (String.eqb _ (backend_pubkey self))); [discriminate |].
  destruct (negb (String.eqb _ (usdc_mint self))); [discriminate |].
  destruct (ts >? t_verify now + 60)%Z eqn:Hfut; [discriminate |].
  destruct (t_verify now - ts >? max_age)%Z eqn:Hold; [discriminate |].
  destruct (_is_nonce_used _ _ _ _) as [used self1] eqn:Hused.
  pose proof (is_nonce_used_state self now
                (default (default "" payer_address)
                   (_parse_payment_header header !! "payer"))
                (default "" (_parse_payment_header header !! "nonce"))) as Hst.
  pose proof (is_nonce_used_value self now
                (default (default "" payer_address)
                   (_parse_payment_header header !! "payer"))
                (default "" (_parse_payment_header header !! "nonce"))) as Hval.
  rewrite Hused in Hst, Hval. simpl in Hst, Hval. subst self1.
  cbv beta iota.
  destruct used; [intros Hv; simpl in Hv; discriminate Hv |].
  destruct (verify_signature _ _ _ _ _ _ _) eqn:Hsig;
    [| intros Hv; simpl in Hv; discriminate Hv].
  intros _. simpl.
  apply negb_false_iff, Z.eqb_eq in Hreq. subst amount.
  repeat match goal with
         | Hx : negb (_ =? 0)%Z = true |- _ =>
             apply negb_true_iff, Z.eqb_neq in Hx
         | Hx : PyStr.truthy _ = true |- _ => apply truthy_nonempty in Hx
         end.
  symmetry in Hval. apply bool_decide_eq_false in Hval.
  split; simpl; try done.
  - lia.
  - destruct (nonce_cache (swept self now) !! _) eqn:E; [| done].
    exfalso. apply Hval. by eexists.
Qed.

Lemma verify_payment_rejected_state self now header payer_address required max_age :
  is_valid (verify_payment self now header payer_address required max_age).1 = false ->
  (verify_payment self now header payer_address required max_age).2 = self
  \/ (cleanup_due self now = true
      /\ (verify_payment self now header payer_address required max_age).2
         = _cleanup_old_nonces self (t_cleanup now)).
Proof.
  unfold verify_payment.
  destruct (bool_decide _); [by left |].
  destruct (int_field _ "amount") as [amount |]; [| by left].
  destruct (int_field _ "timestamp") as [ts |]; [| by left].
  destruct (negb (_ && _)); [by left |].
  destruct (negb (amount =? required)%Z); [by left |].
  destruct (negb (String.eqb _ (backend_pubkey self))); [by left |].
  destruct (negb (String.eqb _ (usdc_mint self))); [by left |].
  destruct (ts >? t_verify now + 60)%Z; [by left |].
  destruct (t_verify now - ts >? max_age)%Z; [by left |].
  unfold _is_nonce_used.
  destruct (bool_decide (is_Some _)); cbv beta iota.
  - intros _. simpl. destruct (cleanup_due self now); [right | left]; done.
  - destruct (verify_signature _ _ _ _ _ _ _); simpl; [discriminate |].
    intros _. destruct (cleanup_due self now); [right | left]; done.
Qed.

Lemma cleanup_lookup self t k ts :
  nonce_cache (_cleanup_old_nonces self t) !! k = Some ts
  <-> nonce_cache self !! k = Some ts /\ t - 3600 <= ts.
Proof.
  unfold _cleanup_old_nonces. simpl.
  rewrite map_lookup_filter_Some. simpl. split; intros [? ?]; split; auto; lia.
Qed.

Lemma cleanup_subseteq self t :
  nonce_cache (_cleanup_old_nonces self t) ⊆ nonce_cache self.
Proof. apply map_filter_subseteq. Qed.

Lemma int_field_blank_or_zero d k z :
  blank_or_zero d k -> int_field d k = Some z -> z = 0.
Proof.
  unfold blank_or_zero, int_field. destruct (d !! k) as [v |].
  - intros [-> | Hz] Hi; [rewrite py_int_empty in Hi; discriminate | congruence].
  - intros _ [= <-]. reflexivity.
Qed.

Lemma evm_verify_payment_fields (self : Evm.PaymentVerifier) now header
  payer_address required max_age :
  Evm.is_valid (Evm.verify_payment self now header payer_address required max_age).1
  = true ->
  ~ lacks_required_field (_parse_payment_header header) payer_address
      (Evm.usdc_address self) (Evm.backend_address self).
Proof.
  unfold Evm.verify_payment.
  destruct (bool_decide _); [discriminate |].
  destruct (int_field _ "amount") as [amount |] eqn:Ha; [| discriminate].
  destruct (int_field _ "timestamp") as [ts |] eqn:Ht; [| discriminate].
  destruct (negb (_ && _)) eqn:Hall; [discriminate |].
  apply negb_false_iff in Hall.
  repeat (apply andb_true_iff in Hall; destruct Hall as [Hall ?]).
  repeat match goal with
         | Hx : negb (_ =? 0)%Z = true |- _ =>
             apply negb_true_iff, Z.eqb_neq in Hx
         | Hx : PyStr.truthy _ = true |- _ => apply truthy_nonempty in Hx
         end.
  intros _ [Hm | [Hm | [Hm | [Hm | [Hm | [Hm | Hm]]]]]]; try done.
  - by apply (int_field_blank_or_zero _ _ _ Hm) in Ha.
  - by apply (int_field_blank_or_zero _ _ _ Hm) in Ht.
Qed.

(** C6, amended. A successful verification records (payer, nonce) in the
    ledger under the authorization's timestamp. While that entry is in the
    ledger, a call presenting the same (payer, nonce) is rejected, unless
    the hourly cleanup run by that very call drops the entry first, which
    it does when the cleanup is due and the recorded timestamp is more than
    3600 seconds before the cleanup's clock reading. A rejected call never
    adds or alters an entry: it leaves the ledger as it was or, if it ran
    the cleanup, as it was minus the entries the cleanup dropped. *)
Theorem nonce_ledger_contract self now header payer_address required max_age :
  let r := verify_payment self now header payer_address required max_age in
  let key := nonce_key (presented_payer header payer_address)
               (presented_nonce header) in
  (is_valid r.1 = true -> nonce_cache r.2 !! key = Some (timestamp r.1))
  /\ (forall ts, nonce_cache self !! key = Some ts ->
        (cleanup_due self now = true -> t_cleanup now - 3600 <= ts) ->
        is_valid r.1 = false)
  /\ (is_valid r.1 = false ->
        (nonce_cache r.2 = nonce_cache self
         \/ (cleanup_due self now = true
             /\ nonce_cache r.2
                = filter (fun kv => ¬ (kv.2 < t_cleanup now - 3600))
                    (nonce_cache self)))
        /\ nonce_cache r.2 ⊆ nonce_cache self).
Proof.
  intros r key. subst r. split; [| split].
  - intros Hv.
    destruct (verify_payment_accepted _ _ _ _ _ _ Hv)
      as [Hp Hn _ _ _ _ _ _ _ _ _ _ Hst].
    subst key. rewrite <- Hp, <- Hn, Hst. simpl. apply lookup_insert_eq.
  - intros ts Hts Hkeep.
    destruct (is_valid _) eqn:Hv; [exfalso | reflexivity].
    destruct (verify_payment_accepted _ _ _ _ _ _ Hv)
      as [Hp Hn _ _ _ _ _ _ _ _ _ Hun _].
    rewrite Hp, Hn in Hun. fold key in Hun. unfold swept in Hun.
    destruct (cleanup_due self now) eqn:Hdue.
    + assert (Hin : nonce_cache (_cleanup_old_nonces self (t_cleanup now)) !! key
                    = Some ts) by (apply cleanup_lookup; auto).
      congruence.
    + congruence.
  - intros Hv.
    destruct (verify_payment_rejected_state _ _ _ _ _ _ Hv) as [Heq | [Hdue Heq]];
      rewrite Heq.
    + split; [by left | done].
    + split; [right; split; [done | reflexivity] | apply cleanup_subseteq].
Qed.

(** C7, amended. [verify_payment], in both verifiers, returns
    [is_valid = false] whenever [amount] or [timestamp] is absent from the
    parsed header, empty or zero, whenever [nonce] or [signature] is absent
    or empty, and whenever [payer], [asset] or [payTo] is empty after an
    absent one has been replaced by the [X-Payer] header, the configured
    asset and the configured backend address respectively. *)
Theorem missing_field_rejected (self : PaymentVerifierSolana)
  (evm : Evm.PaymentVerifier) now header payer_address required max_age :
  let d := _parse_payment_header header in
  (lacks_required_field d payer_address (usdc_mint self) (backend_pubkey self) ->
   is_valid (verify_payment self now header payer_address required max_age).1
   = false)
  /\ (lacks_required_field d payer_address (Evm.usdc_address evm)
        (Evm.backend_address evm) ->
      Evm.is_valid
        (Evm.verify_payment evm now header payer_address required max_age).1
      = false).
Proof.
  intros d. split; intros Hm.
  - destruct (is_valid _) eqn:Hv; [exfalso | reflexivity].
    destruct (verify_payment_accepted _ _ _ _ _ _ Hv)
      as [Epayer Enonce Ha Hanz Ht Htnz (Hp & Has & Hpt & Hn & Hs)
            Easset Epay_to Esig _ _ _].
    rewrite Epayer in Hp. rewrite Enonce in Hn. rewrite Easset in Has.
    rewrite Epay_to in Hpt. rewrite Esig in Hs.
    destruct Hm as [Hm | [Hm | [Hm | [Hm | [Hm | [Hm | Hm]]]]]]; try done.
    + by apply (int_field_blank_or_zero _ _ _ Hm) in Ha.
    + by apply (int_field_blank_or_zero _ _ _ Hm) in Ht.
  - destruct (Evm.is_valid _) eqn:Hv; [exfalso | reflexivity].
    by apply evm_verify_payment_fields in Hv.
Qed.

End VerifierFacts.

(** ** Worked examples for the verifier *)

(** C6 as stated fails. With a maximum age of two hours, the very same
    header is accepted at 1000 and again at 5000: the second call finds the
    cleanup due and drops the entry recorded at 1000 before it looks the
    nonce up. And a call at 5000 that is rejected for its signature has
    nevertheless emptied the ledger. *)
Lemma nonce_replay_counterexample :
  let v0 := Solana.init "BK" "USDC" 1000 in
  let header := Demo.full_header "1000" "good" in
  let first :=
    Solana.verify_payment (ext := Demo.externals) v0 (Demo.at_time 1000)
      header None 1000 7200 in
  let again :=
    Solana.verify_payment (ext := Demo.externals) first.2 (Demo.at_time 5000)
      header None 1000 7200 in
  let forged :=
    Solana.verify_payment (ext := Demo.externals) first.2 (Demo.at_time 5000)
      (Demo.full_header "5000" "forged") None 1000 300 in
  (Solana.is_valid first.1 = true
   /\ Solana.nonce_cache first.2 !! "Alice:n1" = Some 1000
   /\ Solana.payer again.1 = Solana.payer first.1
   /\ Solana.nonce again.1 = Solana.nonce first.1
   /\ Solana.is_valid again.1 = true)
  /\ (Solana.is_valid forged.1 = false
      /\ Solana.nonce_cache forged.2 = ∅
      /\ Solana.nonce_cache forged.2 <> Solana.nonce_cache first.2).
Proof.
  vm_compute. repeat split; discriminate.
Qed.

(** C6, amended, on a header accepted at 1000 and presented again at 1100. *)
Lemma nonce_ledger_contract_witness :
  let v0 := Solana.init "BK" "USDC" 1000 in
  let header := Demo.full_header "1000" "good" in
  let v1 :=
    (Solana.verify_payment (ext := Demo.externals) v0 (Demo.at_time 1000)
       header None 1000 300).2 in
  Solana.nonce_cache v1 !! "Alice:n1" = Some 1000
  /\ Solana.is_valid
       (Solana.verify_payment (ext := Demo.externals) v1 (Demo.at_time 1100)
          header None 1000 300).1 = false
  /\ Solana.nonce_cache
       (Solana.verify_payment (ext := Demo.externals) v1 (Demo.at_time 1100)
          header None 1000 300).2 ⊆ Solana.nonce_cache v1.
Proof.
  intros v0 header v1. split; [| split].
  - apply (proj1 (nonce_ledger_contract (ext := Demo.externals) v0
                    (Demo.at_time 1000) header None 1000 300)).
    vm_compute. reflexivity.
  - apply (proj1 (proj2 (nonce_ledger_contract (ext := Demo.externals) v1
                           (Demo.at_time 1100) header None 1000 300)) 1000).
    + vm_compute. reflexivity.
    + vm_compute. discriminate.
  - apply (proj2 (proj2 (nonce_ledger_contract (ext := Demo.externals) v1
                           (Demo.at_time 1100) header None 1000 300))).
    vm_compute. reflexivity.
Defined.

(** C7 as stated fails. A header that carries neither [payer] nor [asset]
    nor [payTo] is accepted by both verifiers: the payer comes from the
    [X-Payer] header, asset and recipient from the configuration. *)
Lemma absent_fields_counterexample :
  let header := "amount=1000,timestamp=1000,nonce=n1,signature=good" in
  let d := _parse_payment_header header in
  let evm :=
    {| Evm.backend_address := "BK"; Evm.usdc_address := "USDC";
       Evm.nonce_cache := ∅; Evm.nonce_file := ∅;
       Evm.cache_cleanup_interval := 3600; Evm.last_cleanup := 1000 |} in
  d !! "payer" = None /\ d !! "asset" = None /\ d !! "payTo" = None
  /\ Solana.is_valid
       (Solana.verify_payment (ext := Demo.externals)
          (Solana.init "BK" "USDC" 1000) (Demo.at_time 1000) header
          (Some "Alice") 1000 300).1 = true
  /\ Evm.is_valid
       (Evm.verify_payment (ext := Demo.externals) evm (Demo.at_time 1000)
          header (Some "Alice") 1000 300).1 = true.
Proof.
  vm_compute. repeat split.
Qed.

(** C7, amended, on a header whose [amount] is [0]. *)
Lemma missing_field_rejected_witness :
  let header :=
    "payer=Alice,amount=0,asset=USDC,payTo=BK,timestamp=1000,nonce=n1,signature=good" in
  let evm :=
    {| Evm.backend_address := "BK"; Evm.usdc_address := "USDC";
       Evm.nonce_cache := ∅; Evm.nonce_file := ∅;
       Evm.cache_cleanup_interval := 3600; Evm.last_cleanup := 1000 |} in
  Solana.is_valid
    (Solana.verify_payment (ext := Demo.externals) (Solana.init "BK" "USDC" 1000)
       (Demo.at_time 1000) header None 0 300).1 = false
  /\ Evm.is_valid
       (Evm.verify_payment (ext := Demo.externals) evm (Demo.at_time 1000)
          header None 0 300).1 = false.
Proof.
  intros header evm.
  assert (Hz : blank_or_zero (ext := Demo.externals)
                 (_parse_payment_header header) "amount")
    by (vm_compute; right; reflexivity).
  split.
  - apply (proj1 (missing_field_rejected (ext := Demo.externals)
                    (Solana.init "BK" "USDC" 1000) evm (Demo.at_time 1000)
                    header None 0 300)).
    left. exact Hz.
  - apply (proj2 (missing_field_rejected (ext := Demo.externals)
                    (Solana.init "BK" "USDC" 1000) evm (Demo.at_time 1000)
                    header None 0 300)).
    left. exact Hz.
Defined.

(** * Properties of /insure and /renew *)

Section PurchaseFacts.
Context `{ext : Externals}.
Variable config : Server.Config.
Import Server.






End PurchaseFacts.

(** * Properties of /claim and of the background worker *)

Section ClaimFacts.
Context `{ext : Externals}.
Import Server.

Lemma dict_get_set_eq {A} (d : list (string * A)) k v :
  dict_get (dict_set d k v) k = Some v.
Proof.
  induction d as [| [k' v'] d IH]; simpl.
  - by rewrite String.eqb_refl.
  - destruct (String.eqb k' k) eqn:E; simpl; [by rewrite String.eqb_refl |].
    by rewrite E.
Qed.

Lemma dict_get_set_ne {A} (d : list (string * A)) k k' v :
  k <> k' -> dict_get (dict_set d k v) k' = dict_get d k'.
Proof.
  intros Hne. induction d as [| [k0 v0] d IH]; simpl.
  - apply String.eqb_neq in Hne. by rewrite Hne.
  - destruct (String.eqb k0 k) eqn:E; simpl.
    + apply String.eqb_eq in E. subst k0.
      apply String.eqb_neq in Hne. by rewrite Hne.
    + destruct (String.eqb k0 k'); [done | apply IH].
Qed.

Lemma claim_validated st req env pid policy hr :
  validated st req env pid policy hr ->
  claim st req env
  = if async_mode req
    then claim_async st pid policy hr (cl_idempotency_key req) env
    else claim_sync st pid policy hr (cl_idempotency_key req) env.
Proof.
  intros [[Hpid Hne] Hhr Hkey Hpol Hact Hexp]. unfold claim.
  rewrite Hpid, Hhr. apply truthy_nonempty in Hne. rewrite Hne. simpl.
  assert (match cl_idempotency_key req with
          | Some k => if PyStr.truthy k then find_idempotent (claims st) k else None
          | None => None
          end = None) as ->.
  { destruct (cl_idempotency_key req) as [k |]; [| done].
    destruct Hkey as [-> | ->]; [done | by destruct (PyStr.truthy k)]. }
  rewrite Hpol, Hact. simpl.
  assert ((expires_at policy <? cl_now env)%Z = false) as -> by (apply Z.ltb_ge; lia).
  reflexivity.
Qed.




(** C5, amended. When, in the synchronous handler (the only path that
    attests), the attestation succeeds and the payout call raises, the
    answer is HTTP 500 carrying the attestation transaction reference in its
    body; no claim record is written, so none is marked [failed] and a
    lookup of that claim identifier finds nothing; the policy file is
    unchanged and the policy is still [active]. *)
Theorem refund_failure_after_attestation st req env pid policy hr
  proof_hex inputs gen_time_ms attestation e :
  validated st req env pid policy hr ->
  async_mode req = false ->
  generate_proof env = Ok (proof_hex, inputs, gen_time_ms) ->
  verify_proof env = Ok true ->
  inputs !! 0%nat = Some 1 ->
  (4 <= length inputs)%nat ->
  store_proof_on_chain env = Ok attestation ->
  issue_refund env = Raise e ->
  (claim st req env).1
  = respond 500 (BRefundFailed ("Refund failed: " +:+ e) attestation)
  /\ claims (claim st req env).2 = claims st
  /\ policies (claim st req env).2 = policies st
  /\ (exists p, policies (claim st req env).2 !! pid = Some p /\ status p = active)
  /\ (dict_get (claims st) (cl_uuid env) = None ->
      code (get_claim_status (claim st req env).2 (cl_uuid env)) = 404
      /\ code (get_proof (claim st req env).2 (cl_uuid env)) = 404).
Proof.
  intros Hval Hsync Hgen Hver Hfail Hlen Hatt Hrefund.
  rewrite (claim_validated _ _ _ _ _ _ Hval), Hsync.
  unfold claim_sync. rewrite Hgen, Hver, Hatt, Hrefund. simpl.
  destruct inputs as [| i0 [| i1 [| i2 [| i3 rest]]]]; simpl in Hlen; try lia.
  simpl in Hfail. injection Hfail as ->. simpl.
  destruct Hval as [_ _ _ Hpol Hact _].
  split; [reflexivity |]. split; [reflexivity |]. split; [reflexivity |].
  split; [by exists policy |].
  intros Hfresh. unfold get_claim_status, get_proof. simpl. by rewrite Hfresh.
Qed.

(** The background worker never calls [store_proof_on_chain]. *)
Lemma process_claim_async_never_attests st id env :
  List.filter is_attestation (trace (process_claim_async st id env))
  = List.filter is_attestation (trace st).
Proof.
  unfold process_claim_async, mark_failed, save_claim.
  repeat case_match; simpl; rewrite ?List.filter_app; simpl;
    rewrite ?app_nil_r; done.
Qed.

End ClaimFacts.

(** ** Worked examples for the server *)

(** C1: the asynchronous path pays without attesting. An asynchronous
    submission against [p1], followed by its background thread, leaves the
    claim [paid] with a payout transaction and no attestation reference, and
    the log shows the payout call and no call of [store_proof_on_chain]. The
    synchronous path on the same input attests first and keeps the
    reference. *)
Theorem async_claim_paid_without_attestation :
  let st :=
    Scenario.run Scenario.st0
      [Server.Submit (Scenario.submission None (Some "true"))
         (Scenario.handler "c1" 2000 (Server.Ok "tx1"));
       Server.RunThread "c1" (Scenario.worker 2015 (Server.Ok "tx1"))] in
  let sync :=
    (Scenario.claim Scenario.st0 (Scenario.submission None None)
       (Scenario.handler "c1" 2000 (Server.Ok "tx1"))).2 in
  (exists c, Server.dict_get (Server.claims st) "c1" = Some c
             /\ Server.c_status c = Server.paid
             /\ Server.refund_tx_hash c = Some "tx1"
             /\ Server.attestation_tx_hash c = None)
  /\ Server.trace st
     = [Server.claim_saved "c1" Server.processing;
        Server.thread_started "c1";
        Server.generate_proof_called 503;
        Server.verify_proof_called "proof";
        Server.issue_refund_called "c1" "Alice" 100000 (Server.Ok "tx1");
        Server.claim_saved "c1" Server.paid]
  /\ (exists c, Server.dict_get (Server.claims sync) "c1" = Some c
                /\ Server.c_status c = Server.paid
                /\ Server.attestation_tx_hash c = Some "attest-c1")
  /\ Server.trace sync
     = [Server.generate_proof_called 503;
        Server.verify_proof_called "proof";
        Server.store_proof_on_chain_called "c1" "proof" 503 100000
          (Server.Ok "attest-c1");
        Server.issue_refund_called "c1" "Alice" 100000 (Server.Ok "tx1");
        Server.claim_saved "c1" Server.paid].
Proof.
  split; [| split; [| split]].
  - eexists. split; [vm_compute; reflexivity | by repeat split].
  - vm_compute. reflexivity.
  - eexists. split; [vm_compute; reflexivity | by repeat split].
  - vm_compute. reflexivity.
Qed.

(** C2: two asynchronous submissions against [p1], made before either
    background thread has run, are both accepted; when the threads run, both
    claims end [paid] and [issue_refund] has been called twice. *)
Theorem two_async_claims_both_paid :
  let st :=
    Scenario.run Scenario.st0
      [Server.Submit (Scenario.submission None (Some "true"))
         (Scenario.handler "c1" 2000 (Server.Ok "tx1"));
       Server.Submit (Scenario.submission None (Some "true"))
         (Scenario.handler "c2" 2001 (Server.Ok "tx2"));
       Server.RunThread "c1" (Scenario.worker 2015 (Server.Ok "tx1"));
       Server.RunThread "c2" (Scenario.worker 2016 (Server.Ok "tx2"))] in
  Server.paid_claims_of st "p1" = ["c1"; "c2"]
  /\ List.filter Server.is_payout (Server.trace st)
     = [Server.issue_refund_called "c1" "Alice" 100000 (Server.Ok "tx1");
        Server.issue_refund_called "c2" "Alice" 100000 (Server.Ok "tx2")].
Proof.
  vm_compute. split; reflexivity.
Qed.

(** C3: a second submission under the idempotency key of a claim that is
    still [processing] does not get that claim back. The stored record has
    no [proof] key yet, the lookup raises [KeyError] and the answer is HTTP
    500; the same happens once the worker has marked the claim [failed]. No
    external call is made in either case. Only a [paid] claim is replayed. *)
Theorem replay_of_unfinished_claim_raises :
  let first :=
    Scenario.claim Scenario.st0 (Scenario.submission (Some "K") (Some "true"))
      (Scenario.handler "c1" 2000 (Server.Ok "tx1")) in
  let retry st :=
    Scenario.claim st (Scenario.submission (Some "K") (Some "true"))
      (Scenario.handler "c2" 2005 (Server.Ok "tx2")) in
  let failed_st :=
    Server.process_claim_async first.2 "c1"
      (Scenario.worker 2015 (Server.Raise "network")) in
  let paid_st :=
    Server.process_claim_async first.2 "c1"
      (Scenario.worker 2015 (Server.Ok "tx1")) in
  first.1 = Server.respond 202 (Server.BAccepted "c1" "p1" Server.processing)
  /\ retry first.2 = (Server.respond 500 (Server.BUnhandled "KeyError"), first.2)
  /\ Server.c_status <$> Server.dict_get (Server.claims failed_st) "c1"
     = Some Server.failed
  /\ retry failed_st = (Server.respond 500 (Server.BUnhandled "KeyError"), failed_st)
  /\ (retry paid_st).1
     = Server.respond 200
         (Server.BClaim "c1" "p1" "proof" [1; 503; 0; 100000] (1 # 10) "tx1"
            Server.paid true).
Proof.
  vm_compute. repeat split.
Qed.


(** C5 as stated fails. After a successful attestation and a failed payout
    the claims file is still empty: there is no record to carry a [failed]
    status or the attestation reference, and both lookups answer 404. The
    reference is in the body of the 500 response only. *)
Lemma refund_failure_leaves_no_record_counterexample :
  let r :=
    Scenario.claim Scenario.st0 (Scenario.submission None None)
      (Scenario.handler "c1" 2000 (Server.Raise "network")) in
  r.1 = Server.respond 500
          (Server.BRefundFailed "Refund failed: network" "attest-c1")
  /\ Server.claims r.2 = []
  /\ Server.get_claim_status r.2 "c1"
     = Server.respond 404 (Server.BError "Claim not found")
  /\ Server.get_proof r.2 "c1"
     = Server.respond 404 (Server.BError "Claim not found").
Proof.
  vm_compute. repeat split.
Qed.


(** C5, amended, on the synchronous submission of the scenario with a payout
    that raises. *)
Lemma refund_failure_after_attestation_witness :
  let req := Scenario.submission None None in
  let env := Scenario.handler "c1" 2000 (Server.Raise "network") in
  (Scenario.claim Scenario.st0 req env).1
  = Server.respond 500 (Server.BRefundFailed "Refund failed: network" "attest-c1")
  /\ Server.policies (Scenario.claim Scenario.st0 req env).2
     = Server.policies Scenario.st0.
Proof.
  intros req env.
  assert (Hval : validated Scenario.st0 req env "p1" Scenario.p1 Scenario.outage).
  { constructor; by vm_compute. }
  destruct (refund_failure_after_attestation (ext := Demo.externals) Scenario.st0
              req env "p1" Scenario.p1 Scenario.outage "proof" [1; 503; 0; 100000]
              15 "attest-c1" "network" Hval eq_refl eq_refl eq_refl eq_refl
              (le_n 4) eq_refl eq_refl)
    as (Hresp & _ & Hpol & _).
  split; [exact Hresp | exact Hpol].
Defined.




(** * Further properties of the payment verifiers *)

Section MoreVerifierFacts.
Context `{ext : Externals}.
Import Solana.

(** X1. An accepted authorization pays exactly the required, non-zero
    amount to the configured backend key in the configured asset, carries a
    timestamp at most 60 seconds ahead of the clock and at most
    [max_age_seconds] behind it, and has passed the signature check on the
    very fields that are returned; the verifier keeps its configuration. *)
Theorem accepted_meets_requirement self now header payer_address required max_age :
  is_valid (verify_payment self now header payer_address required max_age).1 = true ->
  let d := (verify_payment self now header payer_address required max_age).1 in
  let self' := (verify_payment self now header payer_address required max_age).2 in
  amount_units d = required /\ required <> 0
  /\ pay_to d = backend_pubkey self /\ asset d = usdc_mint self
  /\ timestamp d <= t_verify now + 60
  /\ t_verify now - timestamp d <= max_age
  /\ verify_signature (payer d) (amount_units d) (asset d) (pay_to d)
       (timestamp d) (nonce d) (signature d) = true
  /\ backend_pubkey self' = backend_pubkey self
  /\ usdc_mint self' = usdc_mint self.
Proof.
  unfold verify_payment.
  destruct (bool_decide _); [discriminate |].
  destruct (int_field _ "amount") as [amount |]; [| discriminate].
  destruct (int_field _ "timestamp") as [ts |]; [| discriminate].
  destruct (negb (_ && _)) eqn:Hall; [discriminate |].
  apply negb_false_iff in Hall.
  repeat (apply andb_true_iff in Hall; destruct Hall as [Hall ?]).
  destruct (negb (amount =? required)%Z) eqn:Hreq; [discriminate |].
  destruct (negb (String.eqb _ (backend_pubkey self))) eqn:Hto; [discriminate |].
  destruct (negb (String.eqb _ (usdc_mint self))) eqn:Has; [discriminate |].
  destruct (ts >? t_verify now + 60)%Z eqn:Hfut; [discriminate |].
  destruct (t_verify now - ts >? max_age)%Z eqn:Hold; [discriminate |].
  unfold _is_nonce_used. destruct (bool_decide (is_Some _)); cbv beta iota.
  { intros Hv. simpl in Hv. discriminate Hv. }
  destruct (verify_signature _ _ _ _ _ _ _) eqn:Hsig;
    [| intros Hv; simpl in Hv; discriminate Hv].
  intros _. simpl.
  apply negb_false_iff, Z.eqb_eq in Hreq. subst amount.
  apply negb_false_iff, String.eqb_eq in Hto.
  apply negb_false_iff, String.eqb_eq in Has.
  repeat match goal with
         | Hx : negb (_ =? 0)%Z = true |- _ =>
             apply negb_true_iff, Z.eqb_neq in Hx
         end.
  repeat split; try done; try lia.
  all: by destruct (cleanup_due self now).
Qed.

(** X2. An authorization with the wrong amount, the wrong recipient, the
    wrong asset, or a timestamp outside the accepted window is rejected
    before the nonce ledger is consulted: the verifier is left exactly as it
    was, the hourly cleanup included. *)
Theorem early_rejection_leaves_verifier self now header payer_address required
  max_age :
  let d := _parse_payment_header header in
  ((exists a, int_field d "amount" = Some a /\ a <> required)
   \/ default (backend_pubkey self) (d !! "payTo") <> backend_pubkey self
   \/ default (usdc_mint self) (d !! "asset") <> usdc_mint self
   \/ (exists ts, int_field d "timestamp" = Some ts
                  /\ (t_verify now + 60 < ts \/ max_age < t_verify now - ts))) ->
  is_valid (verify_payment self now header payer_address required max_age).1 = false
  /\ (verify_payment self now header payer_address required max_age).2 = self.
Proof.
  intros d Hbad. subst d. unfold verify_payment.
  destruct (bool_decide _); [done |].
  destruct (int_field _ "amount") as [amount |] eqn:Ha; [| done].
  destruct (int_field _ "timestamp") as [ts |] eqn:Ht; [| done].
  destruct (negb (_ && _)); [done |].
  destruct (negb (amount =? required)%Z) eqn:Hreq; [done |].
  destruct (negb (String.eqb _ (backend_pubkey self))) eqn:Hto; [done |].
  destruct (negb (String.eqb _ (usdc_mint self))) eqn:Has; [done |].
  destruct (ts >? t_verify now + 60)%Z eqn:Hfut; [done |].
  destruct (t_verify now - ts >? max_age)%Z eqn:Hold; [done |].
  exfalso.
  apply negb_false_iff, Z.eqb_eq in Hreq.
  apply negb_false_iff, String.eqb_eq in Hto.
  apply negb_false_iff, String.eqb_eq in Has.
  destruct Hbad as [(a & Ha' & Hne) | [Hb | [Hb | (ts' & Ht' & Hw)]]].
  - congruence.
  - done.
  - done.
  - assert (ts' = ts) by congruence. subst ts'. lia.
Qed.

Lemma entry_survives_call self now header payer_address required max_age k ts :
  nonce_cache self !! k = Some ts ->
  (cleanup_due self now = true -> t_cleanup now - 3600 <= ts) ->
  nonce_cache (verify_payment self now header payer_address required max_age).2 !! k
  = Some ts.
Proof.
  intros Hk Hkeep.
  assert (Hsw : nonce_cache (swept self now) !! k = Some ts).
  { unfold swept. destruct (cleanup_due self now); [| done].
    apply cleanup_lookup. auto. }
  destruct (is_valid (verify_payment self now header payer_address required
                        max_age).1) eqn:Hv.
  - destruct (verify_payment_accepted _ _ _ _ _ _ Hv)
      as [_ _ _ _ _ _ _ _ _ _ _ Hun Hst].
    rewrite Hst. simpl.
    rewrite lookup_insert_ne; [done |]. intros <-. congruence.
  - destruct (verify_payment_rejected_state _ _ _ _ _ _ Hv) as [-> | [Hdue ->]];
      [done |]. unfold swept in Hsw. by rewrite Hdue in Hsw.
Qed.

Lemma entry_survives_calls cs : forall v k ts,
  nonce_cache v !! k = Some ts ->
  Forall (fun x => t_cleanup (call_clock x) - 3600 <= ts) cs ->
  nonce_cache (after_calls v cs) !! k = Some ts.
Proof.
  induction cs as [| x cs IH]; intros v k ts Hk Hcs; [done |].
  inversion Hcs as [| ? ? Hx Hrest]; subst. simpl. apply IH; [| done].
  apply entry_survives_call; [done |]. by intros _.
Qed.

(** X3. Replay protection across any number of calls. Once an
    authorization has been accepted, every later call that presents the
    same payer and nonce is rejected, whatever calls came in between, as
    long as each of those calls and the replay itself read a cleanup clock
    no more than 3600 seconds past the accepted timestamp. *)
Theorem replay_rejected_after_calls v c cs c' :
  is_valid (call v c).1 = true ->
  Forall (fun x => t_cleanup (call_clock x) - 3600 <= timestamp (call v c).1)
         (cs ++ [c']) ->
  presented_payer (call_header c') (call_payer c') = payer (call v c).1 ->
  presented_nonce (call_header c') = nonce (call v c).1 ->
  is_valid (call (after_calls (call v c).2 cs) c').1 = false.
Proof.
  intros Hv Hclocks Hp Hn.
  destruct (verify_payment_accepted _ _ _ _ _ _ Hv)
    as [_ _ _ _ _ _ _ _ _ _ _ _ Hst].
  fold (call v c) in Hst.
  set (key := nonce_key (payer (call v c).1) (nonce (call v c).1)) in *.
  set (ts := timestamp (call v c).1) in *.
  assert (Hmark : nonce_cache (call v c).2 !! key = Some ts).
  { rewrite Hst. simpl. apply lookup_insert_eq. }
  clear Hst Hv.
  generalize dependent (call v c).2. intros v1 Hmark.
  apply Forall_app in Hclocks as [Hcs Hc'].
  apply Forall_inv in Hc'.
  assert (Hlater : nonce_cache (after_calls v1 cs) !! key = Some ts)
    by (by apply entry_survives_calls).
  destruct (is_valid (call (after_calls v1 cs) c').1) eqn:Hv'; [exfalso | done].
  destruct (verify_payment_accepted _ _ _ _ _ _ Hv')
    as [Ep En _ _ _ _ _ _ _ _ _ Hun _].
  fold (call (after_calls v1 cs) c') in Ep, En, Hun.
  rewrite Ep, En, Hp, Hn in Hun. fold key in Hun.
  unfold swept in Hun. destruct (cleanup_due _ _).
  - assert (nonce_cache (_cleanup_old_nonces (after_calls v1 cs)
                           (t_cleanup (call_clock c'))) !! key = Some ts)
      by (apply cleanup_lookup; auto).
    congruence.
  - congruence.
Qed.

(** X4. The hourly cleanup drops exactly the entries whose timestamp is
    more than 3600 seconds before its clock reading and leaves the others
    with their timestamps; run again at the same reading it changes
    nothing; and after it no cleanup is due until the clock has advanced by
    more than the cleanup interval. *)
Theorem cleanup_is_exact self t :
  (forall k ts, nonce_cache (_cleanup_old_nonces self t) !! k = Some ts
                <-> nonce_cache self !! k = Some ts /\ t - 3600 <= ts)
  /\ _cleanup_old_nonces (_cleanup_old_nonces self t) t = _cleanup_old_nonces self t
  /\ (forall now, t_check now - t <= cache_cleanup_interval self ->
                  cleanup_due (_cleanup_old_nonces self t) now = false).
Proof.
  split; [intros k ts; apply cleanup_lookup |]. split.
  - unfold _cleanup_old_nonces. simpl. f_equal.
    apply map_eq. intros k. apply option_eq. intros ts.
    rewrite !map_lookup_filter_Some. simpl. tauto.
  - intros now Hle. unfold cleanup_due. simpl.
    apply bool_decide_eq_false. lia.
Qed.

(** X5. The simple verifier accepts a header exactly when its [amount],
    under a key matched without regard to letter case, is a non-empty text
    that parses to the required amount. Signature, nonce, timestamp,
    recipient and asset play no part. *)
Theorem simple_verifier_accepts_iff backend usdc now header payer_address required :
  is_valid (simple_verify_payment backend usdc now header payer_address required)
  = true
  <-> exists v, parse_items PyStr.lower (PyStr.split "," header) !! "amount" = Some v
                /\ v <> "" /\ py_int v = Some required.
Proof.
  unfold simple_verify_payment.
  destruct (parse_items _ _ !! "amount") as [v |]; simpl.
  - destruct (PyStr.truthy v) eqn:Hv.
    + apply truthy_nonempty in Hv.
      destruct (py_int v) as [amount |] eqn:Hi; simpl.
      * destruct (amount =? required)%Z eqn:Ha; simpl.
        -- apply Z.eqb_eq in Ha. subst. split; [| done].
           intros _. by exists v.
        -- apply Z.eqb_neq in Ha. split; [done |].
           intros (v' & [= <-] & _ & Hi'). congruence.
      * split; [done |]. intros (v' & [= <-] & _ & Hi'). congruence.
    + destruct v; [| discriminate]. simpl. split; [done |].
      by intros (v' & [= <-] & Hne & _).
  - split; [done |]. by intros (v' & ? & _).
Qed.

(** X6. In the EVM verifier the ledger on disk follows the ledger in
    memory: if the two agree before a call they agree after it, whether the
    call was accepted, rejected, or ran the cleanup. *)
Theorem evm_ledger_persisted (self : Evm.PaymentVerifier) now header payer_address
  required max_age :
  Evm.nonce_file self = Evm.nonce_cache self ->
  Evm.nonce_file (Evm.verify_payment self now header payer_address required
                    max_age).2
  = Evm.nonce_cache (Evm.verify_payment self now header payer_address required
                       max_age).2.
Proof.
  intros Hsync. unfold Evm.verify_payment.
  repeat (case_match; try done).
  all: match goal with
       | Hu : Evm._is_nonce_used _ _ _ _ = _ |- _ =>
           unfold Evm._is_nonce_used, Evm._cleanup_old_nonces in Hu;
           injection Hu as _ <-
       end.
  all: simpl; repeat (case_match; simpl; try done).
  all: match goal with
       | Hb : bool_decide (_ = _) = true |- _ =>
           apply bool_decide_eq_true in Hb; congruence
       end.
Qed.

(** X7. The EVM verifier keys its ledger by the lower-cased payer: a nonce
    recorded for one spelling of an address is refused for every other
    spelling that differs only in letter case, unless the cleanup run by
    the call drops the entry first. *)
Theorem evm_replay_ignores_case (self : Evm.PaymentVerifier) now header
  payer_address required max_age p ts :
  PyStr.lower p = PyStr.lower (presented_payer header payer_address) ->
  Evm.nonce_cache self !! Evm.nonce_key p (presented_nonce header) = Some ts ->
  (t_check now - Evm.last_cleanup self > Evm.cache_cleanup_interval self ->
   t_cleanup now - 3600 <= ts) ->
  Evm.is_valid (Evm.verify_payment self now header payer_address required max_age).1
  = false.
Proof.
  intros Hcase Hk Hkeep.
  assert (Hkey : Evm.nonce_key p (presented_nonce header)
                 = Evm.nonce_key (presented_payer header payer_address)
                     (presented_nonce header))
    by (unfold Evm.nonce_key; by rewrite Hcase).
  rewrite Hkey in Hk. clear Hkey Hcase.
  unfold presented_payer, presented_nonce in Hk.
  assert (Hused : forall v',
            (Evm._is_nonce_used self now
               (default (default "" payer_address)
                  (_parse_payment_header header !! "payer"))
               (default "" (_parse_payment_header header !! "nonce"))) <> (false, v')).
  { intros v' Hu. unfold Evm._is_nonce_used in Hu. injection Hu as Hu _.
    apply bool_decide_eq_false in Hu. apply Hu. exists ts.
    case_bool_decide as Hdue; [| done].
    unfold Evm._cleanup_old_nonces. case_bool_decide; simpl.
    all: apply map_lookup_filter_Some; split; [done |]; simpl;
      specialize (Hkeep Hdue); lia. }
  unfold Evm.verify_payment.
  repeat (case_match; try done).
  all: exfalso; by eapply Hused.
Qed.

End MoreVerifierFacts.

(** * Properties of the header format *)

Section HeaderFacts.
Context `{ext : Externals}.
Variable py_str : Z -> string.
Import Generator.

Lemma split_prefix a b :
  no_comma a = true -> PyStr.split "," (a +:+ String "," b) = a :: PyStr.split "," b.
Proof.
  induction a as [| c a IH]; simpl; [done |].
  intros Hc. apply andb_true_iff in Hc as [Hc Ha].
  apply negb_true_iff in Hc. rewrite Hc, (IH Ha). done.
Qed.

Lemma split_whole a : no_comma a = true -> PyStr.split "," a = [a].
Proof.
  induction a as [| c a IH]; simpl; [done |].
  intros Hc. apply andb_true_iff in Hc as [Hc Ha].
  apply negb_true_iff in Hc. rewrite Hc, (IH Ha). done.
Qed.

Lemma split_join items :
  items <> [] -> Forall (fun x => no_comma x = true) items ->
  PyStr.split "," (join_comma items) = items.
Proof.
  induction items as [| x [| y r] IH]; intros Hne Hall; [done | |].
  - simpl. apply split_whole. by inversion Hall.
  - inversion Hall as [| ? ? Hx Hrest]; subst.
    change (join_comma (x :: y :: r)) with (x +:+ String "," (join_comma (y :: r))).
    rewrite split_prefix by done. f_equal. by apply IH.
Qed.

Lemma no_comma_app a b : no_comma (a +:+ b) = no_comma a && no_comma b.
Proof. induction a as [| c a IH]; simpl; [done |]. by rewrite IH, andb_assoc. Qed.

#[local] Arguments PyStr.strip : simpl never.

(** The seven items of a generated header, split at the commas and each
    cut at its first equals sign. *)
Lemma parse_generated_header payer amount mint backend timestamp nonce sig :
  clean payer -> clean (py_str amount) -> clean mint -> clean backend ->
  clean (py_str timestamp) -> clean nonce -> clean sig ->
  _parse_payment_header
    (payment_header py_str payer amount mint backend timestamp nonce sig)
  = fields py_str payer amount mint backend timestamp nonce sig.
Proof.
  intros [Cp Sp] [Ca Sa] [Cm Sm] [Cb Sb] [Ct St] [Cn Sn] [Cs Ss].
  unfold _parse_payment_header.
  change (payment_header py_str payer amount mint backend timestamp nonce sig)
    with (join_comma ["payer=" +:+ payer; "amount=" +:+ py_str amount;
                      "asset=" +:+ mint; "payTo=" +:+ backend;
                      "timestamp=" +:+ py_str timestamp; "nonce=" +:+ nonce;
                      "signature=" +:+ sig]).
  rewrite split_join; [| done |].
  - unfold parse_items, fields. simpl.
    repeat match goal with
           | |- context [String.append EmptyString ?x] =>
               change (String.append EmptyString x) with x
           end.
    rewrite Sp, Sa, Sm, Sb, St, Sn, Ss.
    change (PyStr.strip "payer") with "payer".
    change (PyStr.strip "amount") with "amount".
    change (PyStr.strip "asset") with "asset".
    change (PyStr.strip "payTo") with "payTo".
    change (PyStr.strip "timestamp") with "timestamp".
    change (PyStr.strip "nonce") with "nonce".
    change (PyStr.strip "signature") with "signature".
    apply map_eq. intros k. rewrite !lookup_insert, !lookup_empty.
    repeat (case_decide; subst; try done).
  - repeat constructor; rewrite no_comma_app; simpl; done.
Qed.

(** X8. The header written by [generate_signed_payment] is read back by
    [_parse_payment_header] as exactly the seven fields that went in,
    provided no field contains a comma or starts or ends with white space.
    An equals sign inside a field does no harm. *)
Theorem header_round_trip payer amount mint backend timestamp nonce sig :
  clean payer -> clean (py_str amount) -> clean mint -> clean backend ->
  clean (py_str timestamp) -> clean nonce -> clean sig ->
  _parse_payment_header
    (payment_header py_str payer amount mint backend timestamp nonce sig)
  = fields py_str payer amount mint backend timestamp nonce sig.
Proof. apply parse_generated_header. Qed.

Lemma fields_lookup payer amount mint backend timestamp nonce sig :
  let d := fields py_str payer amount mint backend timestamp nonce sig in
  d !! "payer" = Some payer /\ d !! "amount" = Some (py_str amount)
  /\ d !! "asset" = Some mint /\ d !! "payTo" = Some backend
  /\ d !! "timestamp" = Some (py_str timestamp) /\ d !! "nonce" = Some nonce
  /\ d !! "signature" = Some sig.
Proof.
  unfold fields. simpl.
  repeat split; rewrite !lookup_insert; repeat (case_decide; try done).
Qed.

(** X9. The full verifier accepts the header written by
    [generate_signed_payment] and records its nonce, when the header was
    made for the verifier's backend key and asset and for the required,
    non-zero amount, its timestamp is in the accepted window, its nonce is
    not in the ledger after the cleanup the call may run, the signature
    verifies, no field is empty or unfit for the header format, and [int]
    reads back what [str] wrote. *)
Theorem generated_header_accepted (self : Solana.PaymentVerifierSolana) now
  payer_address payer amount timestamp nonce sig max_age :
  let mint := Solana.usdc_mint self in
  let backend := Solana.backend_pubkey self in
  clean payer -> clean (py_str amount) -> clean mint -> clean backend ->
  clean (py_str timestamp) -> clean nonce -> clean sig ->
  payer <> "" -> mint <> "" -> backend <> "" -> nonce <> "" -> sig <> "" ->
  py_int (py_str amount) = Some amount -> amount <> 0 ->
  py_int (py_str timestamp) = Some timestamp -> timestamp <> 0 ->
  timestamp <= t_verify now + 60 -> t_verify now - timestamp <= max_age ->
  Solana.nonce_cache (swept self now) !! Solana.nonce_key payer nonce = None ->
  verify_signature payer amount mint backend timestamp nonce sig = true ->
  Solana.verify_payment self now
    (payment_header py_str payer amount mint backend timestamp nonce sig)
    payer_address amount max_age
  = ({| Solana.payer := payer; Solana.amount_units := amount;
        Solana.asset := mint; Solana.pay_to := backend;
        Solana.timestamp := timestamp; Solana.nonce := nonce;
        Solana.signature := sig; Solana.is_valid := true |},
     Solana._mark_nonce_used (swept self now) payer nonce timestamp).
Proof.
  intros mint backend Kp Ka Km Kb Kt Kn Ks Np Nm Nb Nn Ns Ia Za It Zt Hfut Hold
    Hun Hsig.
  unfold Solana.verify_payment.
  rewrite (parse_generated_header _ _ _ _ _ _ _ Kp Ka Km Kb Kt Kn Ks).
  destruct (fields_lookup payer amount mint backend timestamp nonce sig)
    as (Lp & La & Lm & Lb & Lt & Ln & Ls).
  rewrite bool_decide_eq_false_2
    by (intros E; rewrite E, lookup_empty in Lp; discriminate).
  unfold Solana.int_field. rewrite Lp, La, Lm, Lb, Lt, Ln, Ls, Ia, It. simpl.
  apply truthy_nonempty in Np, Nm, Nb, Nn, Ns.
  fold mint backend. rewrite Np, Nm, Nb, Nn, Ns.
  apply Z.eqb_neq in Za, Zt. rewrite Za, Zt, Z.eqb_refl, !String.eqb_refl. simpl.
  assert ((timestamp >? t_verify now + 60)%Z = false) as ->
    by (rewrite Z.gtb_ltb; apply Z.ltb_ge; lia).
  assert ((t_verify now - timestamp >? max_age)%Z = false) as ->
    by (rewrite Z.gtb_ltb; apply Z.ltb_ge; lia).
  unfold Solana._is_nonce_used. fold (swept self now). rewrite Hun.
  rewrite bool_decide_eq_false_2 by (by intros [? ?]).
  by rewrite Hsig.
Qed.

End HeaderFacts.

(** * Properties of the refund path of the chain client *)

Section ChainFacts.
Import Chain.

Lemma issue_refund_loop self env to_address amount :
  reaches_loop self env amount ->
  issue_refund self env to_address amount
  = attempts env (max_retries self) 0 (Z.to_nat (max_retries self)) None
      {| sends := 0; slept := 0 |}.
Proof.
  intros (Hw & Ha & Hu & Hs). unfold issue_refund. rewrite Hw, Ha. simpl.
  assert ((usdc_balance env <? amount)%Z = false) as -> by (apply Z.ltb_ge; lia).
  assert ((sol_balance env <? 5000)%Z = false) as -> by (apply Z.ltb_ge; lia).
  reflexivity.
Qed.

Lemma attempts_sends_le env limit n : forall a last done,
  (sends (attempts env limit a n last done).2 <= sends done + n)%nat.
Proof.
  induction n as [| n IH]; intros a last done; simpl; [lia |].
  destruct (send env a); simpl; [lia |].
  etransitivity; [apply IH |]. simpl. lia.
Qed.

Lemma attempts_sends_ge env limit n : forall a last done,
  (sends done <= sends (attempts env limit a n last done).2)%nat.
Proof.
  induction n as [| n IH]; intros a last done; simpl; [lia |].
  destruct (send env a); simpl; [lia |].
  etransitivity; [| apply IH]. simpl. lia.
Qed.

Lemma attempts_first_success env limit n : forall a last done i tx,
  (i < n)%nat -> send env (a + i) = inl tx ->
  (forall j, (j < i)%nat -> raises env (a + j)) ->
  (attempts env limit a n last done).1 = Sent tx
  /\ sends (attempts env limit a n last done).2 = (sends done + i + 1)%nat.
Proof.
  induction n as [| n IH]; intros a last done i tx Hi Hok Hbefore; [lia |].
  simpl. destruct i as [| i].
  - rewrite Nat.add_0_r in Hok. rewrite Hok. simpl. split; [done | lia].
  - destruct (Hbefore 0%nat ltac:(lia)) as [e He].
    rewrite Nat.add_0_r in He. rewrite He.
    destruct (IH (S a) (Some e)
                {| sends := S (sends done);
                   slept := slept done
                            + (if (0 <? a)%nat then 2 ^ Z.of_nat a else 0) |}
                i tx ltac:(lia)) as [Hr Hs].
    + by replace (S a + i)%nat with (a + S i)%nat by lia.
    + intros j Hj. replace (S a + j)%nat with (a + S j)%nat by lia.
      apply Hbefore. lia.
    + split; [done |]. rewrite Hs. simpl. lia.
Qed.

Lemma attempts_sent_inv env limit n : forall a last done tx,
  (attempts env limit a n last done).1 = Sent tx ->
  exists i, (i < n)%nat /\ send env (a + i) = inl tx
            /\ forall j, (j < i)%nat -> raises env (a + j).
Proof.
  induction n as [| n IH]; intros a last done tx; simpl; [discriminate |].
  destruct (send env a) as [tx' | e] eqn:Hs; simpl.
  - intros [= ->]. exists 0%nat. rewrite Nat.add_0_r.
    split; [lia |]. split; [done |]. intros j Hj. lia.
  - intros Hr. destruct (IH _ _ _ _ Hr) as (i & Hi & Hok & Hbefore).
    exists (S i). split; [lia |].
    split; [by replace (a + S i)%nat with (S a + i)%nat by lia |].
    intros [| j] Hj.
    + rewrite Nat.add_0_r. by exists e.
    + replace (a + S j)%nat with (S a + j)%nat by lia. apply Hbefore. lia.
Qed.

Lemma attempts_failed_inv env limit n : forall a last done e,
  (attempts env limit a n last done).1 = Failed e ->
  (exists last', e = RetriesExhausted limit last')
  /\ sends (attempts env limit a n last done).2 = (sends done + n)%nat.
Proof.
  induction n as [| n IH]; intros a last done e; simpl.
  - intros [= <-]. split; [by eexists | lia].
  - destruct (send env a) as [tx | e'] eqn:Hs; simpl; [discriminate |].
    intros Hr. destruct (IH _ _ _ _ Hr) as [Hl Hsn].
    split; [done |]. rewrite Hsn. simpl. lia.
Qed.

Lemma attempts_slept env limit n : forall a last done,
  (1 <= a)%nat ->
  slept (attempts env limit a n last done).2
  = slept done
    + 2 ^ Z.of_nat (a + (sends (attempts env limit a n last done).2 - sends done))
    - 2 ^ Z.of_nat a.
Proof.
  induction n as [| n IH]; intros a last done Ha; simpl.
  - rewrite Nat.sub_diag, Nat.add_0_r. lia.
  - assert ((0 <? a)%nat = true) as -> by (apply Nat.ltb_lt; lia).
    destruct (send env a); simpl.
    + replace (a + (S (sends done) - sends done))%nat with (S a) by lia.
      rewrite Nat2Z.inj_succ, Z.pow_succ_r by lia. lia.
    + rewrite IH by lia. simpl.
      pose proof (attempts_sends_le env limit n (S a) (Some s)
                    {| sends := S (sends done);
                       slept := slept done + 2 ^ Z.of_nat a |}) as Hle.
      pose proof (attempts_sends_ge env limit n (S a) (Some s)
                    {| sends := S (sends done);
                       slept := slept done + 2 ^ Z.of_nat a |}) as Hge.
      simpl in Hle, Hge.
      remember (sends (attempts env limit (S a) n (Some s)
                         {| sends := S (sends done);
                            slept := slept done + 2 ^ Z.of_nat a |}).2) as r.
      replace (S (a + (r - S (sends done))))%nat
        with (a + (r - sends done))%nat by lia.
      rewrite Nat2Z.inj_succ, Z.pow_succ_r by lia. lia.
Qed.


(** X10. [issue_refund] without a wallet returns the mock signature for any
    recipient and any amount and sends nothing. With a wallet it sends
    nothing either when the recipient is malformed or when the USDC or the
    SOL balance is short, and fails; and it never sends more transfers than
    [max_retries]. *)
Theorem refund_guards self env to_address amount :
  (has_wallet self = false ->
   issue_refund self env to_address amount
   = (Sent (mock_sig env), {| sends := 0; slept := 0 |}))
  /\ (has_wallet self = true ->
      address_ok env = false \/ usdc_balance env < amount \/ sol_balance env < 5000 ->
      sends (issue_refund self env to_address amount).2 = 0%nat
      /\ exists e, (issue_refund self env to_address amount).1 = Failed e)
  /\ Z.of_nat (sends (issue_refund self env to_address amount).2)
     <= Z.max 0 (max_retries self).
Proof.
  unfold issue_refund. split; [by intros -> |]. split.
  - intros -> Hbad. simpl.
    destruct (address_ok env); simpl; [| by eauto].
    destruct (usdc_balance env <? amount)%Z eqn:Hu; [by eauto |].
    destruct (sol_balance env <? 5000)%Z eqn:Hs; [by eauto |].
    apply Z.ltb_ge in Hu, Hs. destruct Hbad as [? | [? | ?]]; [done | lia | lia].
  - repeat (case_match; simpl; try lia).
    pose proof (attempts_sends_le env (max_retries self)
                  (Z.to_nat (max_retries self)) 0 None
                  {| sends := 0; slept := 0 |}) as Hle.
    simpl in Hle. lia.
Qed.

(** X11. A funded refund succeeds exactly when one of the first
    [max_retries] transfers goes through: it returns the signature of the
    first that does, after as many sends as it took. Otherwise it fails
    with the retries exhausted after exactly [max_retries] sends; with
    [max_retries] zero or negative that is the outcome of every call. *)
Theorem refund_retries self env to_address amount :
  reaches_loop self env amount ->
  (forall tx,
     (issue_refund self env to_address amount).1 = Sent tx
     <-> exists i, Z.of_nat i < max_retries self /\ send env i = inl tx
                   /\ (forall j, (j < i)%nat -> raises env j)
                   /\ sends (issue_refund self env to_address amount).2 = S i)
  /\ (forall e,
        (issue_refund self env to_address amount).1 = Failed e ->
        (exists last, e = RetriesExhausted (max_retries self) last)
        /\ Z.of_nat (sends (issue_refund self env to_address amount).2)
           = Z.max 0 (max_retries self))
  /\ (max_retries self <= 0 ->
      issue_refund self env to_address amount
      = (Failed (RetriesExhausted (max_retries self) None),
         {| sends := 0; slept := 0 |})).
Proof.
  intros Hloop. rewrite (issue_refund_loop _ _ _ _ Hloop).
  split; [| split].
  - intros tx. split.
    + intros Hr. destruct (attempts_sent_inv _ _ _ _ _ _ _ Hr) as (i & Hi & Hok & Hb).
      exists i. simpl in Hok.
      destruct (attempts_first_success env (max_retries self)
                  (Z.to_nat (max_retries self)) 0 None
                  {| sends := 0; slept := 0 |} i tx Hi Hok Hb) as [_ Hs].
      repeat split; [lia | done | done |]. rewrite Hs. simpl. lia.
    + intros (i & Hi & Hok & Hb & _).
      apply (attempts_first_success env (max_retries self)
               (Z.to_nat (max_retries self)) 0 None
               {| sends := 0; slept := 0 |} i tx); [lia | done | done].
  - intros e Hr. destruct (attempts_failed_inv _ _ _ _ _ _ _ Hr) as [Hl Hs].
    split; [done |]. rewrite Hs. simpl. lia.
  - intros Hz. replace (Z.to_nat (max_retries self)) with 0%nat by lia. reflexivity.
Qed.

(** X12. The back-off of a funded refund: nothing before the first
    transfer, then [2 ** attempt] seconds before each retry, which comes to
    [2 ** sends - 2] seconds for a call that made [sends] transfers. *)
Theorem refund_backoff self env to_address amount :
  reaches_loop self env amount ->
  slept (issue_refund self env to_address amount).2
  = if (sends (issue_refund self env to_address amount).2 =? 0)%nat then 0
    else 2 ^ Z.of_nat (sends (issue_refund self env to_address amount).2) - 2.
Proof.
  intros Hloop. rewrite (issue_refund_loop _ _ _ _ Hloop).
  destruct (Z.to_nat (max_retries self)) as [| n]; simpl; [done |].
  destruct (send env 0%nat) as [tx | e]; simpl; [done |].
  change (0 + 0) with 0.
  pose proof (attempts_sends_ge env (max_retries self) n 1 (Some e)
                {| sends := 1; slept := 0 |}) as Hge.
  rewrite attempts_slept by lia.
  remember (sends (attempts env (max_retries self) 1 n (Some e)
                     {| sends := 1; slept := 0 |}).2) as r.
  simpl in *.
  destruct (r =? 0)%nat eqn:Hz; [apply Nat.eqb_eq in Hz; lia |].
  replace (S (r - 1)) with r by lia. lia.
Qed.

End ChainFacts.

(** * Properties of the start-up configuration *)

Section StartupFacts.
Import Startup.




End StartupFacts.

(** * Properties of the expiry sweep and of the policy listing *)

Section SweepFacts.
Import Server Database Listing.



(** X15. The sweep keeps exactly the policies that are [active] and expire
    strictly after the clock reading; every other policy, a [claimed] one
    included, is deleted. The number it returns is the number it deleted,
    and the claims file is not touched. *)
Theorem sweep_keeps_active_unexpired st now :
  let r := cleanup_expired_policies st now in
  (forall id p, policies r.2 !! id = Some p
                <-> policies st !! id = Some p
                    /\ now < expires_at p /\ status p = active)
  /\ r.1 = Z.of_nat (size (policies st)) - Z.of_nat (size (policies r.2))
  /\ 0 <= r.1
  /\ claims r.2 = claims st.
Proof.
  simpl. split; [| split; [done | split; [| done]]].
  - intros id p. rewrite map_lookup_filter_Some. unfold keeps. simpl. tauto.
  - pose proof (map_subseteq_size
                  (filter (fun kv => keeps now kv.2) (policies st)) (policies st)
                  (map_filter_subseteq _ _)) as Hle.
    unfold cleanup_expired_policies. simpl. lia.
Qed.

(** X16. A claim whose policy the sweep has deleted cannot be processed:
    the background worker marks it [failed] with the error [Policy not
    found], and calls neither the oracle nor the chain client. This is the
    fate of a claim that is still waiting when its policy expires, or when
    another claim on the same policy has been paid. *)
Theorem swept_policy_fails_claim st now id c p env :
  dict_get (claims st) id = Some c ->
  policies st !! c_policy_id c = Some p ->
  ~ keeps now p ->
  let st' := process_claim_async (cleanup_expired_policies st now).2 id env in
  dict_get (claims st') id = Some (fail_claim c "Policy not found" None)
  /\ trace st' = (trace st ++ [claim_saved id failed])%list
  /\ policies st' = policies (cleanup_expired_policies st now).2.
Proof.
  intros Hc Hp Hgone. unfold process_claim_async. simpl. rewrite Hc.
  assert (filter (fun kv => keeps now kv.2) (policies st) !! c_policy_id c = None)
    as ->.
  { apply map_lookup_filter_None. right. intros p' Hp'. simpl. congruence. }
  simpl. split; [apply dict_get_set_eq | done].
Qed.



End SweepFacts.

(** * Further properties of /insure and /renew *)

Section MorePurchaseFacts.
Context `{ext : Externals}.
Variable config : Server.Config.
Import Server.







End MorePurchaseFacts.

Section MoreRenewFacts.
Context `{ext : Externals}.
Variable config : Server.Config.
Import Server.



(** X22. [/renew] leaves the whole state as it was whenever it answers 400
    or 404: a missing or malformed request, an unknown, inactive or expired
    policy is turned away before the payment is looked at, so no nonce is
    spent on it. *)
Theorem renew_refusal_spends_nothing st req env :
  code (renew_policy config st req env).1 = 400
  \/ code (renew_policy config st req env).1 = 404 ->
  (renew_policy config st req env).2 = st.
Proof.
  unfold renew_policy.
  repeat (case_match; simpl; try done); intros [? | ?]; discriminate.
Qed.


End MoreRenewFacts.

(** * Further properties of /claim and of the background worker *)

Section MoreClaimFacts.
Context `{ext : Externals}.
Import Server.

Lemma idempotent_response_code c :
  code (idempotent_response c) = 200 \/ code (idempotent_response c) = 500.
Proof. unfold idempotent_response. repeat case_match; simpl; auto. Qed.

Lemma claim_async_code st pid policy hr key env :
  code (claim_async st pid policy hr key env).1 = 202.
Proof. reflexivity. Qed.

Lemma claim_cases st req env :
  ((claim st req env).2 = st
   /\ code (claim st req env).1 <> 201 /\ code (claim st req env).1 <> 202)
  \/ exists pid policy hr, validated st req env pid policy hr.
Proof.
  unfold claim.
  destruct (cl_policy_id req) as [pid |] eqn:Hpid; [| left; by repeat split].
  destruct (cl_http_response req) as [hr |] eqn:Hhr; [| left; by repeat split].
  destruct (negb (PyStr.truthy pid)) eqn:Htr; [left; by repeat split |].
  apply negb_false_iff, truthy_nonempty in Htr.
  destruct (match cl_idempotency_key req with
            | Some k => if PyStr.truthy k then find_idempotent (claims st) k else None
            | None => None
            end) as [existing |] eqn:Hrep.
  { left. simpl. destruct (idempotent_response_code existing) as [-> | ->];
      by repeat split. }
  destruct (policies st !! pid) as [policy |] eqn:Hpol; [| left; by repeat split].
  destruct (negb (bool_decide (status policy = active))) eqn:Hact;
    [left; by repeat split |].
  apply negb_false_iff, bool_decide_eq_true in Hact.
  destruct (expires_at policy <? cl_now env)%Z eqn:Hexp; [left; by repeat split |].
  apply Z.ltb_ge in Hexp.
  right. exists pid, policy, hr. constructor; try done.
  destruct (cl_idempotency_key req) as [k |]; [| done].
  destruct (PyStr.truthy k) eqn:Hk; [by right |].
  left. by destruct k.
Qed.

(** X24. A claim against a policy that is missing, not [active] or expired
    is refused with the state exactly as it was: no record is written, no
    thread is started, and neither the oracle nor the chain client is
    called. *)
Theorem claim_on_closed_policy_refused st req env :
  (forall pid policy,
     cl_policy_id req = Some pid -> policies st !! pid = Some policy ->
     status policy <> active \/ expires_at policy < cl_now env) ->
  (claim st req env).2 = st
  /\ code (claim st req env).1 <> 201 /\ code (claim st req env).1 <> 202.
Proof.
  intros Hclosed.
  destruct (claim_cases st req env) as [Hleft | (pid & policy & hr & Hval)]; [done |].
  destruct Hval as [[Hpid _] _ _ Hpol Hact Hexp].
  destruct (Hclosed pid policy Hpid Hpol); [done | lia].
Qed.

(** X25. Whatever the request and whatever the outcomes of the external
    calls, [/claim] itself pays only after it has attested: if the handler
    calls [issue_refund], then the oracle's proof verified, its failure
    flag was 1, [store_proof_on_chain] had succeeded just before for the
    same claim identifier and the same amount, and the payout is the first
    and only one of that request. *)
Theorem handler_payout_follows_attestation st req env :
  exists new,
    trace (claim st req env).2 = (trace st ++ new)%list
    /\ forall id to_address amount r,
        In (issue_refund_called id to_address amount r) new ->
        exists proof_hex inputs gen_time_ms attestation hr rest,
          generate_proof env = Ok (proof_hex, inputs, gen_time_ms)
          /\ verify_proof env = Ok true
          /\ inputs !! 0%nat = Some 1
          /\ store_proof_on_chain env = Ok attestation
          /\ issue_refund env = r
          /\ id = cl_uuid env
          /\ new = ([generate_proof_called (hr_status hr);
                     verify_proof_called proof_hex;
                     store_proof_on_chain_called id (PyStr.take 64 proof_hex)
                       (hr_status hr) amount (Ok attestation);
                     issue_refund_called id to_address amount r] ++ rest)%list
          /\ (rest = [] \/ rest = [claim_saved id paid]).
Proof.
  destruct (claim_cases st req env) as [(Hst & _) | (pid & policy & hr & Hval)].
  { exists []. rewrite Hst, app_nil_r. split; [done | by intros]. }
  rewrite (claim_validated _ _ _ _ _ _ Hval).
  destruct (async_mode req).
  { eexists. split; [simpl; rewrite <- app_assoc; reflexivity |].
    simpl. intros id to_address amount r [? | [? | []]]; discriminate. }
  unfold claim_sync.
  destruct (generate_proof env) as [[[proof_hex inputs] gen_time_ms] | e].
  2: { eexists. split; [reflexivity |]. simpl. intros ? ? ? ? [? | []]. discriminate. }
  destruct (verify_proof env) as [is_valid | e].
  2: { eexists. split; [simpl; rewrite <- app_assoc; reflexivity |].
       simpl. intros ? ? ? ? [? | [? | []]]; discriminate. }
  destruct is_valid; simpl.
  2: { eexists. split; [simpl; rewrite <- app_assoc; reflexivity |].
       simpl. intros ? ? ? ? [? | [? | []]]; discriminate. }
  destruct (inputs !! 0%nat) as [is_failure |] eqn:H0.
  2: { eexists. split; [simpl; rewrite <- app_assoc; reflexivity |].
       simpl. intros ? ? ? ? [? | [? | []]]; discriminate. }
  destruct (inputs !! 1%nat).
  2: { eexists. split; [simpl; rewrite <- app_assoc; reflexivity |].
       simpl. intros ? ? ? ? [? | [? | []]]; discriminate. }
  destruct (inputs !! 2%nat).
  2: { eexists. split; [simpl; rewrite <- app_assoc; reflexivity |].
       simpl. intros ? ? ? ? [? | [? | []]]; discriminate. }
  destruct (inputs !! 3%nat).
  2: { eexists. split; [simpl; rewrite <- app_assoc; reflexivity |].
       simpl. intros ? ? ? ? [? | [? | []]]; discriminate. }
  destruct (is_failure =? 1)%Z eqn:Hf; simpl.
  2: { eexists. split; [simpl; rewrite <- app_assoc; reflexivity |].
       simpl. intros ? ? ? ? [? | [? | []]]; discriminate. }
  apply Z.eqb_eq in Hf. subst is_failure.
  destruct (store_proof_on_chain env) as [attestation | e].
  2: { eexists. split; [simpl; rewrite <- !app_assoc; reflexivity |].
       simpl. intros ? ? ? ? [? | [? | [? | []]]]; discriminate. }
  destruct (issue_refund env) as [refund_tx | e].
  - eexists. split; [simpl; rewrite <- !app_assoc; reflexivity |].
    simpl. intros id to_address amount r [? | [? | [? | [Hin | [? | []]]]]];
      try discriminate.
    injection Hin as <- <- <- <-.
    exists proof_hex, inputs, gen_time_ms, attestation, hr, [claim_saved (cl_uuid env) paid].
    repeat split; auto.
  - eexists. split; [simpl; rewrite <- !app_assoc; reflexivity |].
    simpl. intros id to_address amount r [? | [? | [? | [Hin | []]]]];
      try discriminate.
    injection Hin as <- <- <- <-.
    exists proof_hex, inputs, gen_time_ms, attestation, hr, [].
    repeat split; auto.
Qed.

Lemma claim_paid_inv st req env :
  code (claim st req env).1 = 201 ->
  exists pid policy hr proof_hex inputs gen_time_ms attestation refund_tx,
    validated st req env pid policy hr
    /\ store_proof_on_chain env = Ok attestation
    /\ issue_refund env = Ok refund_tx
    /\ claim st req env
       = (respond 201
            (BClaim (cl_uuid env) pid proof_hex inputs (coverage_amount policy)
               refund_tx paid false),
          set_policies
            (save_claim
               (log st (sync_calls (cl_uuid env) policy hr proof_hex attestation
                          refund_tx))
               (cl_uuid env)
               (paid_record (cl_uuid env) pid policy hr (cl_idempotency_key req)
                  proof_hex inputs gen_time_ms attestation refund_tx
                  (cl_created_at env) (cl_paid_at env)))
            (<[pid := with_status policy claimed]> (policies st))).
Proof.
  intros Hcode.
  destruct (claim_cases st req env) as [(_ & Hne & _) | (pid & policy & hr & Hval)];
    [done |].
  rewrite (claim_validated _ _ _ _ _ _ Hval) in Hcode |- *.
  destruct (async_mode req); [discriminate |].
  revert Hcode. unfold claim_sync.
  destruct (generate_proof env) as [[[proof_hex inputs] gen_time_ms] | e]; [| done].
  destruct (verify_proof env) as [[] | e]; simpl; [| done | done].
  destruct (inputs !! 0%nat) as [is_failure |]; [| done].
  destruct (inputs !! 1%nat); [| done].
  destruct (inputs !! 2%nat); [| done].
  destruct (inputs !! 3%nat); [| done].
  destruct (negb (is_failure =? 1)%Z); [done |].
  destruct (store_proof_on_chain env) as [attestation | e]; [| done].
  destruct (issue_refund env) as [refund_tx | e]; [| done].
  intros _.
  exists pid, policy, hr, proof_hex, inputs, gen_time_ms, attestation, refund_tx.
  split; [done |]. split; [done |]. split; [done |]. f_equal.
  unfold set_policies, save_claim, set_claims, log, sync_calls. simpl.
  by rewrite <- !app_assoc.
Qed.

(** X26. A claim answered 201 has settled the policy: the policy is now
    [claimed] and every other policy is as before; the stored record is
    [paid], carries the attestation and the payout references, pays the
    policy's coverage in micro-units to the policy's owner, and keeps the
    caller's idempotency key; and [/proofs/<claim_id>] returns that record,
    attestation reference included. *)
Theorem paid_claim_effects st req env :
  code (claim st req env).1 = 201 ->
  exists pid policy hr c attestation refund_tx,
    validated st req env pid policy hr
    /\ store_proof_on_chain env = Ok attestation
    /\ issue_refund env = Ok refund_tx
    /\ policies (claim st req env).2
       = <[pid := with_status policy claimed]> (policies st)
    /\ get_proof (claim st req env).2 (cl_uuid env) = respond 200 (BClaimRecord c)
    /\ c_status c = paid /\ c_policy_id c = pid
    /\ attestation_tx_hash c = Some attestation
    /\ refund_tx_hash c = Some refund_tx
    /\ payout_amount_units c = Some (payout_units policy)
    /\ recipient_address c = Some (agent_address policy)
    /\ idempotency_key c = cl_idempotency_key req.
Proof.
  intros Hcode.
  destruct (claim_paid_inv st req env Hcode)
    as (pid & policy & hr & proof_hex & inputs & gen & att & tx & Hval & Ha & Hr & ->).
  eexists pid, policy, hr, _, att, tx.
  split; [done |]. split; [done |]. split; [done |]. split; [done |].
  split.
  - unfold get_proof. simpl. by rewrite dict_get_set_eq.
  - by repeat split.
Qed.

Lemma find_idempotent_set cs : forall id c k,
  find_idempotent cs k = None -> idempotency_key c = Some k ->
  find_idempotent (dict_set cs id c) k = Some c.
Proof.
  induction cs as [| [id' c'] cs IH]; intros id c k Hnone Hk; simpl.
  - by rewrite bool_decide_eq_true_2.
  - simpl in Hnone. case_bool_decide as Hc'; [done |].
    destruct (String.eqb id' id); simpl.
    + by rewrite bool_decide_eq_true_2.
    + rewrite bool_decide_eq_false_2 by done. by apply IH.
Qed.

(** X27. A paid claim is replayed. After a claim answered 201 under a
    non-empty idempotency key, a further submission under the same key is
    answered 200 with the identifier, policy, proof, payout and status
    [paid] of that claim, marked idempotent, whatever policy and evidence
    the retry names; the state does not change, so nothing is paid or
    attested again. *)
Theorem paid_claim_replayed st req env k req' env' pid' hr' :
  code (claim st req env).1 = 201 ->
  cl_idempotency_key req = Some k -> k <> "" ->
  cl_idempotency_key req' = Some k ->
  cl_policy_id req' = Some pid' -> pid' <> "" ->
  cl_http_response req' = Some hr' ->
  exists pid proof_hex inputs amount refund_tx,
    (claim st req env).1
    = respond 201 (BClaim (cl_uuid env) pid proof_hex inputs amount refund_tx paid
                     false)
    /\ claim (claim st req env).2 req' env'
       = (respond 200 (BClaim (cl_uuid env) pid proof_hex inputs amount refund_tx
                         paid true),
          (claim st req env).2).
Proof.
  intros Hcode Hk Hne Hk' Hpid' Hpne Hhr'.
  destruct (claim_paid_inv st req env Hcode)
    as (pid & policy & hr & proof_hex & inputs & gen & att & tx & Hval & Ha & Hr & ->).
  exists pid, proof_hex, inputs, (coverage_amount policy), tx.
  split; [done |].
  destruct Hval as [_ _ Hfresh _ _ _]. rewrite Hk in Hfresh.
  destruct Hfresh as [-> | Hfresh]; [done |].
  unfold claim at 1. rewrite Hpid', Hhr', Hk'.
  apply truthy_nonempty in Hpne, Hne. rewrite Hpne, Hne. simpl.
  rewrite find_idempotent_set; [done | done |]. simpl. exact Hk.
Qed.






(** X29. The background worker always brings a stored claim to a final
    status: after it has run, the record is [paid] or [failed], never still
    [processing], and keeps its identifier, policy and idempotency key. A
    claim it marks [failed] carries an error text and leaves the policy
    file untouched. A claim identifier it does not find changes nothing. *)
Theorem worker_reaches_final_status st id env :
  (dict_get (claims st) id = None -> process_claim_async st id env = st)
  /\ forall c, dict_get (claims st) id = Some c ->
       exists c',
         dict_get (claims (process_claim_async st id env)) id = Some c'
         /\ (c_status c' = paid \/ c_status c' = failed)
         /\ claim_id c' = claim_id c /\ c_policy_id c' = c_policy_id c
         /\ idempotency_key c' = idempotency_key c
         /\ (c_status c' = failed ->
             is_Some (error c')
             /\ policies (process_claim_async st id env) = policies st).
Proof.
  split.
  - intros Hnone. unfold process_claim_async. by rewrite Hnone.
  - intros c Hc. unfold process_claim_async, mark_failed. rewrite Hc.
    repeat (case_match; simpl in *; simplify_eq).
    all: try (eexists; split; [apply dict_get_set_eq |]; simpl;
              repeat split; eauto; done).
Qed.

Ltac worker_no_payout :=
  eexists; split; [simpl; rewrite <- ?app_assoc; reflexivity |];
  split; [simpl; lia |]; simpl; intros; intuition discriminate.

(** X30. The background worker pays at most once per run, and only on a
    confirmed failure: if it calls [issue_refund], the claim record and its
    policy exist, the oracle's proof verified with failure flag 1, and the
    payout goes to the address and for the amount that were stored on the
    claim record when it was accepted. *)
Theorem worker_payout_needs_confirmed_failure st id env :
  exists new,
    trace (process_claim_async st id env) = (trace st ++ new)%list
    /\ (length (List.filter is_payout new) <= 1)%nat
    /\ forall id' to_address amount r,
        In (issue_refund_called id' to_address amount r) new ->
        exists c proof_hex inputs gen_time_ms,
          id' = id
          /\ dict_get (claims st) id = Some c
          /\ is_Some (policies st !! c_policy_id c)
          /\ c_agent_address c = Some to_address
          /\ c_coverage_amount_units c = Some amount
          /\ wk_generate_proof env = Ok (proof_hex, inputs, gen_time_ms)
          /\ wk_verify_proof env = Ok true
          /\ inputs !! 0%nat = Some 1
          /\ wk_issue_refund env = r.
Proof.
  unfold process_claim_async.
  destruct (dict_get (claims st) id) as [c |] eqn:Hc.
  2: { exists []. rewrite app_nil_r. split; [done |]. split; [simpl; lia | by intros]. }
  destruct (policies st !! c_policy_id c) as [policy |] eqn:Hpol;
    [| worker_no_payout].
  destruct (http_response c) as [hr |].
  2: { unfold mark_failed. rewrite Hc. worker_no_payout. }
  destruct (wk_generate_proof env) as [[[proof_hex inputs] gen_time_ms] | e].
  2: { unfold mark_failed. simpl. rewrite Hc. worker_no_payout. }
  destruct (wk_verify_proof env) as [[] | e]; simpl.
  2: worker_no_payout.
  2: { unfold mark_failed. simpl. rewrite Hc. worker_no_payout. }
  destruct (inputs !! 0%nat) as [is_failure |] eqn:H0.
  2: { unfold mark_failed. simpl. rewrite Hc. worker_no_payout. }
  destruct (is_failure =? 1)%Z eqn:Hf; simpl; [| worker_no_payout].
  apply Z.eqb_eq in Hf. subst is_failure.
  destruct (c_agent_address c) as [to_address |] eqn:Hto.
  2: { unfold mark_failed. simpl. rewrite Hc. worker_no_payout. }
  destruct (c_coverage_amount_units c) as [units |] eqn:Hunits.
  2: { unfold mark_failed. simpl. rewrite Hc. worker_no_payout. }
  destruct (wk_issue_refund env) as [refund_tx | e] eqn:Hrefund.
  - destruct (c_coverage_amount c).
    + eexists. split; [simpl; rewrite <- !app_assoc; reflexivity |].
      split; [simpl; lia |]. simpl.
      intros id' to' amount' r' [? | [? | [Hin | [? | []]]]]; try discriminate.
      injection Hin as <- <- <- <-.
      exists c, proof_hex, inputs, gen_time_ms. repeat split; eauto.
    + unfold mark_failed. simpl. rewrite Hc.
      eexists. split; [simpl; rewrite <- !app_assoc; reflexivity |].
      split; [simpl; lia |]. simpl.
      intros id' to' amount' r' [? | [? | [Hin | [? | []]]]]; try discriminate.
      injection Hin as <- <- <- <-.
      exists c, proof_hex, inputs, gen_time_ms. repeat split; eauto.
  - unfold mark_failed. simpl. rewrite Hc.
    eexists. split; [simpl; rewrite <- !app_assoc; reflexivity |].
    split; [simpl; lia |]. simpl.
    intros id' to' amount' r' [? | [? | [Hin | [? | []]]]]; try discriminate.
    injection Hin as <- <- <- <-.
    exists c, proof_hex, inputs, gen_time_ms. repeat split; eauto.
Qed.

End MoreClaimFacts.

(** * The further properties on concrete inputs *)

(** X1 on the header of the scenario, accepted at 1000. *)
Lemma accepted_meets_requirement_witness :
  Solana.pay_to
    (Solana.verify_payment (ext := Demo.externals) (Solana.init "BK" "USDC" 1000)
       (Demo.at_time 1000) (Demo.full_header "1000" "good") None 1000 300).1
  = "BK".
Proof.
  destruct (accepted_meets_requirement (ext := Demo.externals)
              (Solana.init "BK" "USDC" 1000) (Demo.at_time 1000)
              (Demo.full_header "1000" "good") None 1000 300)
    as (_ & _ & Hto & _); [vm_compute; reflexivity | exact Hto].
Defined.

(** X2 on a header that offers 1000 where 999 is required, at a moment
    when the cleanup is due. *)
Lemma early_rejection_leaves_verifier_witness :
  (Solana.verify_payment (ext := Demo.externals) (Solana.init "BK" "USDC" 1000)
     (Demo.at_time 9000) (Demo.full_header "9000" "good") None 999 300).2
  = Solana.init "BK" "USDC" 1000.
Proof.
  apply (early_rejection_leaves_verifier (ext := Demo.externals)
           (Solana.init "BK" "USDC" 1000) (Demo.at_time 9000)
           (Demo.full_header "9000" "good") None 999 300).
  left. exists 1000. split; [vm_compute; reflexivity | lia].
Defined.

(** X3 on a replay at 2000 of the header accepted at 1000, with a call by
    another payer in between. *)
Lemma replay_rejected_after_calls_witness :
  let v := Solana.init "BK" "USDC" 1000 in
  let c := {| call_clock := Demo.at_time 1000;
              call_header := Demo.full_header "1000" "good";
              call_payer := None; call_required := 1000; call_max_age := 300 |} in
  let other :=
    {| call_clock := Demo.at_time 1500;
       call_header :=
         "payer=Bob,amount=1000,asset=USDC,payTo=BK,timestamp=1500,nonce=n2,signature=good";
       call_payer := None; call_required := 1000; call_max_age := 300 |} in
  let c' := {| call_clock := Demo.at_time 2000;
               call_header := Demo.full_header "1000" "good";
               call_payer := None; call_required := 1000; call_max_age := 7200 |} in
  Solana.is_valid
    (call (ext := Demo.externals)
       (after_calls (ext := Demo.externals) (call (ext := Demo.externals) v c).2
          [other]) c').1 = false.
Proof.
  intros v c other c'.
  apply (replay_rejected_after_calls (ext := Demo.externals) v c [other] c').
  - vm_compute. reflexivity.
  - repeat constructor; vm_compute; discriminate.
  - vm_compute. reflexivity.
  - vm_compute. reflexivity.
Defined.

(** X4 on a ledger with one old and one recent entry, cleaned at 5000. *)
Lemma cleanup_is_exact_witness :
  let v :=
    {| Solana.backend_pubkey := "BK"; Solana.usdc_mint := "USDC";
       Solana.nonce_cache := {["Alice:n1" := 1000; "Bob:n2" := 4000]};
       Solana.cache_cleanup_interval := 3600; Solana.last_cleanup := 1000 |} in
  Solana.nonce_cache (Solana._cleanup_old_nonces v 5000) !! "Bob:n2" = Some 4000
  /\ Solana.cleanup_due (Solana._cleanup_old_nonces v 5000) (Demo.at_time 8600)
     = false.
Proof.
  intros v. split.
  - apply (proj1 (cleanup_is_exact v 5000) "Bob:n2" 4000).
    split; [vm_compute; reflexivity | lia].
  - apply (proj2 (proj2 (cleanup_is_exact v 5000)) (Demo.at_time 8600)).
    simpl. lia.
Defined.

(** X5 on a header with an upper-case key and no signature. *)
Lemma simple_verifier_accepts_iff_witness :
  Solana.is_valid
    (Solana.simple_verify_payment (ext := Demo.externals) "BK" "USDC" 2000
       "AMOUNT=1000" None 1000) = true.
Proof.
  apply (simple_verifier_accepts_iff (ext := Demo.externals) "BK" "USDC" 2000
           "AMOUNT=1000" None 1000).
  exists "1000". split; [vm_compute; reflexivity |].
  split; [discriminate | vm_compute; reflexivity].
Defined.

(** X6 on a fresh EVM verifier and a header it accepts. *)
Lemma evm_ledger_persisted_witness :
  let evm :=
    {| Evm.backend_address := "BK"; Evm.usdc_address := "USDC";
       Evm.nonce_cache := ∅; Evm.nonce_file := ∅;
       Evm.cache_cleanup_interval := 3600; Evm.last_cleanup := 1000 |} in
  let r :=
    Evm.verify_payment (ext := Demo.externals) evm (Demo.at_time 1000)
      (Demo.full_header "1000" "good") None 1000 300 in
  Evm.is_valid r.1 = true
  /\ Evm.nonce_file r.2 = Evm.nonce_cache r.2
  /\ Evm.nonce_file r.2 !! "alice:n1" = Some 1000.
Proof.
  intros evm r. split; [vm_compute; reflexivity |]. split.
  - apply (evm_ledger_persisted (ext := Demo.externals) evm (Demo.at_time 1000)
             (Demo.full_header "1000" "good") None 1000 300).
    reflexivity.
  - vm_compute. reflexivity.
Defined.

(** X7 on a nonce recorded for [alice] and presented by [Alice]. *)
Lemma evm_replay_ignores_case_witness :
  let evm :=
    {| Evm.backend_address := "BK"; Evm.usdc_address := "USDC";
       Evm.nonce_cache := {["alice:n1" := 1000]};
       Evm.nonce_file := {["alice:n1" := 1000]};
       Evm.cache_cleanup_interval := 3600; Evm.last_cleanup := 1000 |} in
  Evm.is_valid
    (Evm.verify_payment (ext := Demo.externals) evm (Demo.at_time 1100)
       (Demo.full_header "1100" "good") None 1000 300).1 = false.
Proof.
  intros evm.
  apply (evm_replay_ignores_case (ext := Demo.externals) evm (Demo.at_time 1100)
           (Demo.full_header "1100" "good") None 1000 300 "alice" 1000).
  - vm_compute. reflexivity.
  - vm_compute. reflexivity.
  - vm_compute. discriminate.
Defined.

(** X8 on a header whose signature text contains an equals sign. *)
Lemma header_round_trip_witness :
  _parse_payment_header
    (Generator.payment_header pretty "Alice" 1000 "USDC" "BK" 1699999999
       "n-1" "c2ln=")
  !! "signature" = Some "c2ln=".
Proof.
  rewrite (header_round_trip pretty "Alice" 1000 "USDC" "BK" 1699999999 "n-1"
             "c2ln=") by (split; vm_compute; reflexivity).
  vm_compute. reflexivity.
Defined.

(** X9 on a header generated at 2000 and verified at 2010. *)
Lemma generated_header_accepted_witness :
  let v := Solana.init "BK" "USDC" 1000 in
  Solana.is_valid
    (Solana.verify_payment (ext := Demo.externals) v (Demo.at_time 2010)
       (Generator.payment_header pretty "Alice" 1000 "USDC" "BK" 2000 "n-1" "good")
       None 1000 300).1 = true.
Proof.
  intros v.
  rewrite (generated_header_accepted (ext := Demo.externals) pretty v
             (Demo.at_time 2010) None "Alice" 1000 2000 "n-1" "good" 300)
    by first [ split; vm_compute; reflexivity | discriminate
             | vm_compute; reflexivity | vm_compute; discriminate ].
  reflexivity.
Defined.

(** X10 on a payout larger than the balance. *)
Lemma refund_guards_witness :
  Chain.sends (Chain.issue_refund flaky_client flaky_network "Alice" 600000).2
  = 0%nat.
Proof.
  apply (proj1 (proj2 (refund_guards flaky_client flaky_network "Alice" 600000)));
    [reflexivity |].
  right. left. simpl. lia.
Defined.

(** X11 on a transfer that goes through at the third try. *)
Lemma refund_retries_witness :
  (Chain.issue_refund flaky_client flaky_network "Alice" 100000).1
  = Chain.Sent "tx3".
Proof.
  apply (proj1 (refund_retries flaky_client flaky_network "Alice" 100000
                  ltac:(repeat split; simpl; lia)) "tx3").
  exists 2%nat. split; [simpl; lia |]. split; [reflexivity |]. split.
  - intros j Hj. destruct j as [| [| j]]; [by exists "timeout" .. | lia].
  - vm_compute. reflexivity.
Defined.

(** X12 on the same call: three sends, 2 + 4 seconds of sleep. *)
Lemma refund_backoff_witness :
  Chain.slept (Chain.issue_refund flaky_client flaky_network "Alice" 100000).2 = 6.
Proof.
  rewrite (refund_backoff flaky_client flaky_network "Alice" 100000
             ltac:(repeat split; simpl; lia)).
  vm_compute. reflexivity.
Defined.


(** X15 and X16 on the claim that is waiting when the sweep runs at 90000,
    after the policy has expired. *)
Lemma sweep_keeps_active_unexpired_witness :
  Server.policies (Database.cleanup_expired_policies st_waiting 2000).2 !! "p1"
  = Some Scenario.p1
  /\ (Database.cleanup_expired_policies st_waiting 90000).1 = 1.
Proof.
  split.
  - apply (proj1 (sweep_keeps_active_unexpired st_waiting 2000) "p1" Scenario.p1).
    split; [vm_compute; reflexivity |]. split; [simpl; lia | reflexivity].
  - vm_compute. reflexivity.
Defined.

Lemma swept_policy_fails_claim_witness :
  Server.c_status
  <$> Server.dict_get
        (Server.claims
           (Server.process_claim_async
              (Database.cleanup_expired_policies st_waiting 90000).2 "c1"
              (Scenario.worker 90001 (Server.Ok "tx1")))) "c1"
  = Some Server.failed.
Proof.
  destruct (swept_policy_fails_claim st_waiting 90000 "c1"
              (Server.processing_record (ext := Demo.externals) "c1" "p1"
                 Scenario.p1 Scenario.outage None 2000)
              Scenario.p1 (Scenario.worker 90001 (Server.Ok "tx1")))
    as (Hc & _).
  - vm_compute. reflexivity.
  - vm_compute. reflexivity.
  - intros [Hlt _]. simpl in Hlt. lia.
  - rewrite Hc. reflexivity.
Defined.




(** X22 on a renewal of a policy that does not exist. *)
Lemma renew_refusal_spends_nothing_witness :
  (Server.renew_policy (ext := Demo.externals) Scenario.config Scenario.st0
     (renewal "p9" "Alice") renewal_env).2 = Scenario.st0.
Proof.
  apply (renew_refusal_spends_nothing (ext := Demo.externals) Scenario.config
           Scenario.st0 (renewal "p9" "Alice") renewal_env).
  right. reflexivity.
Defined.


(** X24 and X28 on a second claim against the policy that was paid. *)
Lemma claim_on_closed_policy_refused_witness :
  (Scenario.claim st_paid (Scenario.submission None None)
     (Scenario.handler "c2" 2005 (Server.Ok "tx2"))).2 = st_paid.
Proof.
  apply (claim_on_closed_policy_refused (ext := Demo.externals) st_paid
           (Scenario.submission None None)
           (Scenario.handler "c2" 2005 (Server.Ok "tx2"))).
  intros pid policy Hpid Hpol. injection Hpid as <-.
  vm_compute in Hpol. injection Hpol as <-. left. discriminate.
Defined.


(** X25 on the synchronous claim of the scenario. *)
Lemma handler_payout_follows_attestation_witness :
  exists new,
    Server.trace
      (Scenario.claim Scenario.st0 (Scenario.submission None None)
         (Scenario.handler "c1" 2000 (Server.Ok "tx1"))).2
    = (Server.trace Scenario.st0 ++ new)%list
    /\ (In (Server.issue_refund_called "c1" "Alice" 100000 (Server.Ok "tx1")) new ->
        Server.store_proof_on_chain (Scenario.handler "c1" 2000 (Server.Ok "tx1"))
        = Server.Ok "attest-c1").
Proof.
  destruct (handler_payout_follows_attestation (ext := Demo.externals) Scenario.st0
              (Scenario.submission None None)
              (Scenario.handler "c1" 2000 (Server.Ok "tx1")))
    as (new & Htrace & Hpay).
  exists new. split; [exact Htrace |]. intros Hin.
  destruct (Hpay _ _ _ _ Hin) as (? & ? & ? & att & ? & ? & _ & _ & _ & Hatt & _).
  reflexivity.
Defined.

(** X26 and X27 on the claim paid under the key [K]. *)
Lemma paid_claim_effects_witness :
  exists c,
    Server.get_proof st_paid "c1" = Server.respond 200 (Server.BClaimRecord c)
    /\ Server.attestation_tx_hash c = Some "attest-c1"
    /\ Server.recipient_address c = Some "Alice".
Proof.
  destruct (paid_claim_effects (ext := Demo.externals) Scenario.st0
              (Scenario.submission (Some "K") None)
              (Scenario.handler "c1" 2000 (Server.Ok "tx1")) eq_refl)
    as (pid & policy & hr & c & att & tx & Hval & Hatt & _ & _ & Hget & _ & _
        & Ha & _ & _ & Hr & _).
  destruct Hval as [[Hpid _] _ _ Hpol _ _].
  injection Hpid as <-. vm_compute in Hpol. injection Hpol as <-.
  injection Hatt as <-.
  exists c. split; [exact Hget |]. split; [exact Ha | exact Hr].
Defined.

Lemma paid_claim_replayed_witness :
  (Scenario.claim st_paid
     {| Server.cl_policy_id := Some "some-other-policy";
        Server.cl_http_response := Some Scenario.outage;
        Server.cl_idempotency_key := Some "K"; Server.cl_async := None |}
     (Scenario.handler "c2" 2005 (Server.Ok "tx2"))).2 = st_paid.
Proof.
  destruct (paid_claim_replayed (ext := Demo.externals) Scenario.st0
              (Scenario.submission (Some "K") None)
              (Scenario.handler "c1" 2000 (Server.Ok "tx1")) "K"
              {| Server.cl_policy_id := Some "some-other-policy";
                 Server.cl_http_response := Some Scenario.outage;
                 Server.cl_idempotency_key := Some "K"; Server.cl_async := None |}
              (Scenario.handler "c2" 2005 (Server.Ok "tx2"))
              "some-other-policy" Scenario.outage
              eq_refl eq_refl ltac:(discriminate) eq_refl eq_refl
              ltac:(discriminate) eq_refl)
    as (pid & proof_hex & inputs & amount & tx & _ & Hreplay).
  exact (f_equal snd Hreplay).
Defined.

(** X29 and X30 on the background thread of the waiting claim. *)
Lemma worker_reaches_final_status_witness :
  exists c',
    Server.dict_get
      (Server.claims
         (Server.process_claim_async st_waiting "c1"
            (Scenario.worker 2015 (Server.Raise "network")))) "c1" = Some c'
    /\ (Server.c_status c' = Server.paid \/ Server.c_status c' = Server.failed).
Proof.
  destruct (proj2 (worker_reaches_final_status st_waiting "c1"
                     (Scenario.worker 2015 (Server.Raise "network")))
              (Server.processing_record (ext := Demo.externals) "c1" "p1"
                 Scenario.p1 Scenario.outage None 2000))
    as (c' & Hc' & Hs & _); [vm_compute; reflexivity |].
  by exists c'.
Defined.

Lemma worker_payout_needs_confirmed_failure_witness :
  exists new,
    Server.trace
      (Server.process_claim_async st_waiting "c1"
         (Scenario.worker 2015 (Server.Ok "tx1")))
    = (Server.trace st_waiting ++ new)%list
    /\ (length (List.filter Server.is_payout new) <= 1)%nat.
Proof.
  destruct (worker_payout_needs_confirmed_failure st_waiting "c1"
              (Scenario.worker 2015 (Server.Ok "tx1")))
    as (new & Htrace & Hone & _).
  by exists new.
Defined.


